(** * Flexer OSINT: the device/session authorization state machine

    A shallow embedding of the session logic of the web client:
    - [types.ts]            the profile document and session metadata;
    - [App.tsx] (the revision with [authorizedSessions], file
      [src/unnamed/part_002]): the sign-in handler, [approvePendingSession],
      [denyPendingSession], the render-time stale determination;
    - [AdminPanel.tsx] (file [src/unnamed/part_001]): the admin handlers;
    - [src/App.tsx] and [src/components/AdminPanel.tsx]: the earlier revision
      of the same handlers, embedded in [Module Legacy].

    The Firestore collection [users] is a finite map from document key to
    profile; a handler is a function from what it reads (its arguments, the
    local React state, the answers of [confirm] dialogs, the clock and the
    user agent) to the list of effects it issues. *)

From stdpp Require Import base numbers strings list option gmap fin_maps.
From Stdlib Require Import Ascii.

Local Open Scope string_scope.
Local Open Scope list_scope.

(** ** Data model ([types.ts]) *)

Record SessionMetadata := mkSessionMetadata {
  sid : string;
  deviceName : string;
  timestamp : Z
}.

(** Optional fields ([authorizedSessions?], [pendingSessionId?],
    [pendingSessionMetadata?]) are [option]s: [None] stands for both an
    absent field and a stored [null], which the code never tells apart.
    [isOwner?] is only ever tested for truthiness, so an absent [isOwner]
    is [false]. *)
Record UserProfile := mkUserProfile {
  uid : string;
  email : string;
  isAdmin : bool;
  isOwner : bool;
  isApproved : bool;
  lastSessionId : string;
  authorizedSessions : option (list SessionMetadata);
  pendingSessionId : option string;
  pendingSessionMetadata : option SessionMetadata
}.

Definition ROOT_OWNER_EMAIL : string := "owner@flexer.io".

#[global] Instance SessionMetadata_eq_dec : EqDecision SessionMetadata.
Proof. solve_decision. Defined.

#[global] Instance UserProfile_eq_dec : EqDecision UserProfile.
Proof. solve_decision. Defined.

(** ** JavaScript truthiness of the values the handlers test *)

(** [!s] on a string: only the empty string is falsy. *)
Definition truthy_string (s : string) : bool := negb (bool_decide (s = "")).

(** [!x] on a [string | null | undefined]. *)
Definition truthy (x : option string) : bool :=
  match x with
  | Some s => truthy_string s
  | None => false
  end.

(** ** Firestore *)

(** One key of the object literal handed to [updateDoc]. *)
Inductive FieldWrite :=
| W_isAdmin (v : bool)
| W_isApproved (v : bool)
| W_lastSessionId (v : string)
| W_authorizedSessions (v : list SessionMetadata)
| W_authorizedSessions_arrayUnion (v : SessionMetadata)
| W_pendingSessionId (v : option string)
| W_pendingSessionMetadata (v : option SessionMetadata).

(** [arrayUnion(m)] on an array field: [m] is added at the end unless an
    element equal to it (all fields) is already there; an absent field
    becomes the one-element array. *)
Definition arrayUnion (m : SessionMetadata)
    (field : option (list SessionMetadata)) : list SessionMetadata :=
  let l := default [] field in
  if bool_decide (m ∈ l) then l else l ++ [m].

Definition apply_field (p : UserProfile) (w : FieldWrite) : UserProfile :=
  match w with
  | W_isAdmin v =>
      mkUserProfile (uid p) (email p) v (isOwner p) (isApproved p)
        (lastSessionId p) (authorizedSessions p) (pendingSessionId p)
        (pendingSessionMetadata p)
  | W_isApproved v =>
      mkUserProfile (uid p) (email p) (isAdmin p) (isOwner p) v
        (lastSessionId p) (authorizedSessions p) (pendingSessionId p)
        (pendingSessionMetadata p)
  | W_lastSessionId v =>
      mkUserProfile (uid p) (email p) (isAdmin p) (isOwner p) (isApproved p)
        v (authorizedSessions p) (pendingSessionId p)
        (pendingSessionMetadata p)
  | W_authorizedSessions v =>
      mkUserProfile (uid p) (email p) (isAdmin p) (isOwner p) (isApproved p)
        (lastSessionId p) (Some v) (pendingSessionId p)
        (pendingSessionMetadata p)
  | W_authorizedSessions_arrayUnion v =>
      mkUserProfile (uid p) (email p) (isAdmin p) (isOwner p) (isApproved p)
        (lastSessionId p) (Some (arrayUnion v (authorizedSessions p)))
        (pendingSessionId p) (pendingSessionMetadata p)
  | W_pendingSessionId v =>
      mkUserProfile (uid p) (email p) (isAdmin p) (isOwner p) (isApproved p)
        (lastSessionId p) (authorizedSessions p) v
        (pendingSessionMetadata p)
  | W_pendingSessionMetadata v =>
      mkUserProfile (uid p) (email p) (isAdmin p) (isOwner p) (isApproved p)
        (lastSessionId p) (authorizedSessions p) (pendingSessionId p) v
  end.

(** The document after a field-level update. *)
Definition apply_update (data : list FieldWrite) (p : UserProfile) : UserProfile :=
  foldl apply_field p data.

Inductive DbOp :=
| SetDoc (key : string) (data : UserProfile)
| UpdateDoc (key : string) (data : list FieldWrite)
| DeleteDoc (key : string).

(** What a handler does to the outside: a write, or an [alert] box. *)
Inductive Effect :=
| Alert (msg : string)
| Db (op : DbOp).

(** The [users] collection. [updateDoc] on a missing document is rejected
    by the store and leaves it as it was. *)
Definition exec_op (op : DbOp) (db : gmap string UserProfile) : gmap string UserProfile :=
  match op with
  | SetDoc key data => <[key := data]> db
  | UpdateDoc key data =>
      match db !! key with
      | Some p => <[key := apply_update data p]> db
      | None => db
      end
  | DeleteDoc key => delete key db
  end.

Definition exec (e : Effect) (db : gmap string UserProfile) : gmap string UserProfile :=
  match e with
  | Alert _ => db
  | Db op => exec_op op db
  end.

Definition run (es : list Effect) (db : gmap string UserProfile) : gmap string UserProfile :=
  foldl (λ d e, exec e d) db es.

(** The writes among the effects of a handler. *)
Definition writes (es : list Effect) : list DbOp :=
  omap (λ e, match e with Db op => Some op | Alert _ => None end) es.

(** ** The client ([App.tsx], revision with [authorizedSessions]) *)

(** [getLocalSessionId]: the stored id, or a fresh [uuidv4()] that is then
    stored. Returns the id and the new content of [localStorage.flexer_sid]. *)
Definition getLocalSessionId (stored : option string) (fresh : string)
    : string * option string :=
  if negb (truthy stored) then (fresh, Some fresh)
  else (default fresh stored, stored).

(** What the sign-in handler reads from its environment: the local session
    id, [getDeviceName()] and [Date.now()]. *)
Record Client := mkClient {
  currentSid : string;
  deviceLabel : string;
  now : Z
}.

Record FirebaseUser := mkFirebaseUser {
  fu_uid : string;
  fu_email : option string
}.

Definition newSessionOf (c : Client) : SessionMetadata :=
  mkSessionMetadata (currentSid c) (deviceLabel c) (now c).

Definition isPrivileged (p : UserProfile) : bool := isAdmin p || isOwner p.

(** [p.authorizedSessions?.some(s => s.sid === currentSid)], with
    [undefined] read as a boolean. *)
Definition someSid (sessions : option (list SessionMetadata)) (s : string) : bool :=
  match sessions with
  | Some l => existsb (λ m, bool_decide (sid m = s)) l
  | None => false
  end.

(** The body of the [onAuthStateChanged] callback for a signed-in user,
    given the result of [getDoc(userDocRef)]. *)
Definition onAuthStateChanged (c : Client) (firebaseUser : FirebaseUser)
    (userDoc : option UserProfile) : list Effect :=
  let userDocRef := fu_uid firebaseUser in
  match userDoc with
  | None =>
      let isOwner := bool_decide (fu_email firebaseUser = Some ROOT_OWNER_EMAIL) in
      let session := newSessionOf c in
      let newProfile :=
        mkUserProfile (fu_uid firebaseUser) (default "" (fu_email firebaseUser))
          isOwner isOwner isOwner (currentSid c)
          (Some (if isOwner then [session] else [])) None None in
      [Db (SetDoc userDocRef newProfile)]
  | Some existingProfile =>
      if isPrivileged existingProfile then
        let isAlreadyAuthorized :=
          someSid (authorizedSessions existingProfile) (currentSid c) in
        if negb isAlreadyAuthorized then
          [Db (UpdateDoc userDocRef
                 [W_authorizedSessions_arrayUnion (newSessionOf c)])]
        else []
      else if bool_decide (lastSessionId existingProfile ≠ currentSid c) then
        [Db (UpdateDoc userDocRef
               [W_pendingSessionId (Some (currentSid c));
                W_pendingSessionMetadata (Some (newSessionOf c))])]
      else []
  end.

(** [profile] below is the React state, [null] until a snapshot arrives. *)
Definition approvePendingSession (profile : option UserProfile) : list Effect :=
  match profile with
  | None => []
  | Some p =>
      match pendingSessionId p with
      | Some pending =>
          if truthy_string pending then
            [Db (UpdateDoc (uid p)
                   [W_lastSessionId pending;
                    W_pendingSessionId None;
                    W_pendingSessionMetadata None])]
          else []
      | None => []
      end
  end.

Definition denyPendingSession (profile : option UserProfile) : list Effect :=
  match profile with
  | None => []
  | Some p =>
      [Db (UpdateDoc (uid p)
             [W_pendingSessionId None; W_pendingSessionMetadata None])]
  end.

Definition isStale (profile : UserProfile) (currentSid : string) : bool :=
  if negb (isPrivileged profile) then
    bool_decide (lastSessionId profile ≠ currentSid)
    && bool_decide (pendingSessionId profile ≠ Some currentSid)
  else negb (someSid (authorizedSessions profile) currentSid).

(** The screens [App] can return once [user] and [profile] are set. *)
Inductive Screen :=
| SessionOverwritten
| AwaitingVerification
| SecurityAlert
| AdminPanelScreen
| UserDashboardScreen.

Definition render (profile : UserProfile) (currentSid : string)
    (isAdminView : bool) : Screen :=
  if isStale profile currentSid then SessionOverwritten
  else if negb (isPrivileged profile)
          && bool_decide (pendingSessionId profile = Some currentSid)
  then AwaitingVerification
  else if negb (isPrivileged profile)
          && truthy (pendingSessionId profile)
          && bool_decide (lastSessionId profile = currentSid)
  then SecurityAlert
  else if isAdmin profile && isAdminView then AdminPanelScreen
  else UserDashboardScreen.

(** The names the specification gives to the screens. *)
Inductive SessionState := AUTHORIZED | PENDING_SELF | PENDING_FOREIGN | STALE.

Definition state_of (s : Screen) : SessionState :=
  match s with
  | SessionOverwritten => STALE
  | AwaitingVerification => PENDING_SELF
  | SecurityAlert => PENDING_FOREIGN
  | AdminPanelScreen | UserDashboardScreen => AUTHORIZED
  end.

Definition sessionState (profile : UserProfile) (currentSid : string)
    (isAdminView : bool) : SessionState :=
  state_of (render profile currentSid isAdminView).

(** ** The admin console ([AdminPanel.tsx], revision with the device registry)

    [profile] is the signed-in admin's own profile (a prop of the panel);
    [confirmed] is the answer of the [confirm] dialog. *)

Definition handleToggleApproval (key : string) (currentStatus : bool) : list Effect :=
  [Db (UpdateDoc key [W_isApproved (negb currentStatus)])].

Definition handleToggleAdmin (profile targetUser : UserProfile) : list Effect :=
  if negb (isOwner profile) then
    [Alert "Only the Root Owner can manage Admin roles."]
  else if isOwner targetUser then []
  else [Db (UpdateDoc (uid targetUser) [W_isAdmin (negb (isAdmin targetUser))])].

Definition handleAuthorizeSession (user : UserProfile) : list Effect :=
  match pendingSessionId user with
  | Some pending =>
      if truthy_string pending then
        [Db (UpdateDoc (uid user)
               [W_lastSessionId pending;
                W_pendingSessionId None;
                W_pendingSessionMetadata None])]
      else []
  | None => []
  end.

Definition handleRevokeDevice (profile : UserProfile) (revoked : string)
    (confirmed : bool) : list Effect :=
  if confirmed then
    let updatedSessions :=
      match authorizedSessions profile with
      | Some l => filter (λ s, sid s ≠ revoked) l
      | None => []
      end in
    [Db (UpdateDoc (uid profile) [W_authorizedSessions updatedSessions])]
  else [].

Definition handleDeleteUser (user : UserProfile) (confirmed : bool) : list Effect :=
  if isOwner user then []
  else if confirmed then [Db (DeleteDoc (uid user))]
  else [].

(** ** What goes over the wire

    The object literals of [setDoc] and [updateDoc], as the store receives
    them; used to compare the two revisions of the sign-in handler. *)

#[local] Unset Elimination Schemes.
Inductive Json :=
| JNull
| JBool (b : bool)
| JString (s : string)
| JNumber (n : Z)
| JArray (items : list Json)
| JObject (members : list (string * Json)).
#[local] Set Elimination Schemes.

Inductive FieldValue :=
| Plain (v : Json)
| ArrayUnionOf (elements : list Json).

Inductive Request :=
| SetRequest (key : string) (doc : list (string * Json))
| UpdateRequest (key : string) (data : list (string * FieldValue))
| DeleteRequest (key : string).

Definition json_of_sid (x : option string) : Json :=
  match x with Some s => JString s | None => JNull end.

Definition json_of_session (m : SessionMetadata) : Json :=
  JObject [("sid", JString (sid m));
           ("deviceName", JString (deviceName m));
           ("timestamp", JNumber (timestamp m))].

Definition field_of_write (w : FieldWrite) : string * FieldValue :=
  match w with
  | W_isAdmin v => ("isAdmin", Plain (JBool v))
  | W_isApproved v => ("isApproved", Plain (JBool v))
  | W_lastSessionId v => ("lastSessionId", Plain (JString v))
  | W_authorizedSessions v =>
      ("authorizedSessions", Plain (JArray (json_of_session <$> v)))
  | W_authorizedSessions_arrayUnion v =>
      ("authorizedSessions", ArrayUnionOf [json_of_session v])
  | W_pendingSessionId v => ("pendingSessionId", Plain (json_of_sid v))
  | W_pendingSessionMetadata v =>
      ("pendingSessionMetadata",
       Plain (match v with Some m => json_of_session m | None => JNull end))
  end.

(** The literal [newProfile] of the sign-in handler: every key is present
    except [pendingSessionMetadata]. *)
Definition json_of_newProfile (p : UserProfile) : list (string * Json) :=
  [("uid", JString (uid p));
   ("email", JString (email p));
   ("isAdmin", JBool (isAdmin p));
   ("isOwner", JBool (isOwner p));
   ("isApproved", JBool (isApproved p));
   ("lastSessionId", JString (lastSessionId p));
   ("authorizedSessions",
    JArray (json_of_session <$> default [] (authorizedSessions p)));
   ("pendingSessionId", json_of_sid (pendingSessionId p))].

Definition request_of (op : DbOp) : Request :=
  match op with
  | SetDoc key data => SetRequest key (json_of_newProfile data)
  | UpdateDoc key data => UpdateRequest key (field_of_write <$> data)
  | DeleteDoc key => DeleteRequest key
  end.

Definition requests (es : list Effect) : list Request :=
  request_of <$> writes es.

(** The top-level keys a request writes. *)
Definition written_fields (r : Request) : list string :=
  match r with
  | SetRequest _ doc => doc.*1
  | UpdateRequest _ data => data.*1
  | DeleteRequest _ => []
  end.

(** ** The earlier revision ([src/App.tsx], with the [types.ts] it was
    written against: no [authorizedSessions], pending metadata without a
    session id) *)

Module Legacy.

Record PendingMetadata := mkPendingMetadata {
  deviceName : string;
  timestamp : Z
}.

Record UserProfile := mkUserProfile {
  uid : string;
  email : string;
  isAdmin : bool;
  isOwner : bool;
  isApproved : bool;
  lastSessionId : string;
  pendingSessionId : option string;
  pendingSessionMetadata : option PendingMetadata
}.

(** The keys this revision's sign-in handler hands to [updateDoc]. *)
Inductive FieldWrite :=
| W_pendingSessionId (v : option string)
| W_pendingSessionMetadata (v : option PendingMetadata).

Definition apply_field (p : UserProfile) (w : FieldWrite) : UserProfile :=
  match w with
  | W_pendingSessionId v =>
      mkUserProfile (uid p) (email p) (isAdmin p) (isOwner p) (isApproved p)
        (lastSessionId p) v (pendingSessionMetadata p)
  | W_pendingSessionMetadata v =>
      mkUserProfile (uid p) (email p) (isAdmin p) (isOwner p) (isApproved p)
        (lastSessionId p) (pendingSessionId p) v
  end.

Definition apply_update (data : list FieldWrite) (p : UserProfile) : UserProfile :=
  foldl apply_field p data.

Inductive DbOp :=
| SetDoc (key : string) (data : UserProfile)
| UpdateDoc (key : string) (data : list FieldWrite).

(** The body of the [onAuthStateChanged] callback of [src/App.tsx]. *)
Definition onAuthStateChanged (c : Client) (firebaseUser : FirebaseUser)
    (userDoc : option UserProfile) : list DbOp :=
  let userDocRef := fu_uid firebaseUser in
  match userDoc with
  | None =>
      let isOwner := bool_decide (fu_email firebaseUser = Some ROOT_OWNER_EMAIL) in
      let newProfile :=
        mkUserProfile (fu_uid firebaseUser) (default "" (fu_email firebaseUser))
          isOwner isOwner isOwner (currentSid c) None None in
      [SetDoc userDocRef newProfile]
  | Some existingProfile =>
      if bool_decide (lastSessionId existingProfile ≠ currentSid c) then
        [UpdateDoc userDocRef
           [W_pendingSessionId (Some (currentSid c));
            W_pendingSessionMetadata
              (Some (mkPendingMetadata (deviceLabel c) (now c)))]]
      else []
  end.

(** Scenarios 1 to 3 of the render function; this revision has no
    stale screen. *)
Definition render (profile : UserProfile) (currentSid : string) : Screen :=
  if bool_decide (pendingSessionId profile = Some currentSid)
  then AwaitingVerification
  else if truthy (pendingSessionId profile)
          && bool_decide (lastSessionId profile = currentSid)
  then SecurityAlert
  else if isAdmin profile then AdminPanelScreen
  else UserDashboardScreen.

Definition json_of_metadata (m : PendingMetadata) : Json :=
  JObject [("deviceName", JString (deviceName m));
           ("timestamp", JNumber (timestamp m))].

Definition field_of_write (w : FieldWrite) : string * FieldValue :=
  match w with
  | W_pendingSessionId v => ("pendingSessionId", Plain (json_of_sid v))
  | W_pendingSessionMetadata v =>
      ("pendingSessionMetadata",
       Plain (match v with Some m => json_of_metadata m | None => JNull end))
  end.

Definition json_of_newProfile (p : UserProfile) : list (string * Json) :=
  [("uid", JString (uid p));
   ("email", JString (email p));
   ("isAdmin", JBool (isAdmin p));
   ("isOwner", JBool (isOwner p));
   ("isApproved", JBool (isApproved p));
   ("lastSessionId", JString (lastSessionId p));
   ("pendingSessionId", json_of_sid (pendingSessionId p))].

Definition request_of (op : DbOp) : Request :=
  match op with
  | SetDoc key data => SetRequest key (json_of_newProfile data)
  | UpdateDoc key data => UpdateRequest key (field_of_write <$> data)
  end.

Definition requests (ops : list DbOp) : list Request := request_of <$> ops.

End Legacy.

(** A stored document as the earlier revision reads it
    ([userDoc.data() as UserProfile]): the fields its type does not have
    are not looked at. *)
Definition as_legacy (p : UserProfile) : Legacy.UserProfile :=
  match p with
  | mkUserProfile u e a o ap l _ ps pm =>
      Legacy.mkUserProfile u e a o ap l ps
        (match pm with
         | Some (mkSessionMetadata _ d t) => Some (Legacy.mkPendingMetadata d t)
         | None => None
         end)
  end.

(** ** The system as a transition system over the [users] collection

    Each operation reads the local state it needs from the collection (the
    live subscriptions keep the React state equal to the stored documents)
    and applies the handler's effects. *)

Definition signIn (c : Client) (firebaseUser : FirebaseUser)
    (db : gmap string UserProfile) : gmap string UserProfile :=
  run (onAuthStateChanged c firebaseUser (db !! fu_uid firebaseUser)) db.

Inductive Operation :=
| OpSignIn (c : Client) (firebaseUser : FirebaseUser)
| OpApprove (actor : string)
| OpDeny (actor : string)
| OpRevoke (actor : string) (revoked : string) (confirmed : bool)
| OpToggleApproval (target : string)
| OpToggleAdmin (actor target : string)
| OpAuthorizeSession (target : string)
| OpDeleteUser (target : string) (confirmed : bool).

Definition effects_of (op : Operation) (db : gmap string UserProfile) : list Effect :=
  match op with
  | OpSignIn c firebaseUser =>
      onAuthStateChanged c firebaseUser (db !! fu_uid firebaseUser)
  | OpApprove actor => approvePendingSession (db !! actor)
  | OpDeny actor => denyPendingSession (db !! actor)
  | OpRevoke actor revoked confirmed =>
      match db !! actor with
      | Some profile => handleRevokeDevice profile revoked confirmed
      | None => []
      end
  | OpToggleApproval target =>
      match db !! target with
      | Some u => handleToggleApproval (uid u) (isApproved u)
      | None => []
      end
  | OpToggleAdmin actor target =>
      match db !! actor, db !! target with
      | Some profile, Some targetUser => handleToggleAdmin profile targetUser
      | _, _ => []
      end
  | OpAuthorizeSession target =>
      match db !! target with
      | Some user => handleAuthorizeSession user
      | None => []
      end
  | OpDeleteUser target confirmed =>
      match db !! target with
      | Some user => handleDeleteUser user confirmed
      | None => []
      end
  end.

Definition step (op : Operation) (db : gmap string UserProfile) : gmap string UserProfile :=
  run (effects_of op db) db.

(** Documents are stored under their own [uid]. *)
Definition keyed (db : gmap string UserProfile) : Prop :=
  map_Forall (λ k p, uid p = k) db.

(** The entries of [authorizedSessions], none when the field is absent. *)
Definition sessions (p : UserProfile) : list SessionMetadata :=
  default [] (authorizedSessions p).

(** The structural invariant of the data model: a standard profile has no
    authorized-session entries, a privileged one no pending request. *)
Definition structural (p : UserProfile) : Prop :=
  if isPrivileged p
  then pendingSessionId p = None ∧ pendingSessionMetadata p = None
  else sessions p = [].

#[global] Instance structural_dec (p : UserProfile) : Decision (structural p).
Proof. unfold structural. destruct (isPrivileged p); apply _. Defined.

Definition structural_db (db : gmap string UserProfile) : Prop :=
  map_Forall (λ _ p, structural p) db.

#[global] Instance keyed_dec (db : gmap string UserProfile) : Decision (keyed db).
Proof. unfold keyed. apply _. Defined.

#[global] Instance structural_db_dec (db : gmap string UserProfile) :
  Decision (structural_db db).
Proof. unfold structural_db. apply _. Defined.

Definition is_role_toggle (op : Operation) : bool :=
  match op with
  | OpToggleAdmin _ _ => true
  | _ => false
  end.

(** The store after a sequence of operations, first one first. *)
Definition steps (ops : list Operation) (db : gmap string UserProfile)
    : gmap string UserProfile :=
  foldl (λ d op, step op d) db ops.

(** ** Updates and sample documents used in the statements below *)

(** What approve and the admin override write. *)
Definition approval_update (pending : string) : list FieldWrite :=
  [W_lastSessionId pending; W_pendingSessionId None; W_pendingSessionMetadata None].

(** What deny writes. *)
Definition denial_update : list FieldWrite :=
  [W_pendingSessionId None; W_pendingSessionMetadata None].

(** An admin signed in on the device ["s0"]. *)
Definition admin_u1 : UserProfile :=
  mkUserProfile "u1" "admin@flexer.io" true false true "s0"
    (Some [mkSessionMetadata "s0" "X11; Linux x86_64" 1]) None None.

Definition db_admin : gmap string UserProfile := {[ "u1" := admin_u1 ]}.

(** A standard user whose second device ["s2"] asked for access at time 1. *)
Definition user_u2 : UserProfile :=
  mkUserProfile "u2" "user@example.org" false false true "s1" (Some [])
    (Some "s2") (Some (mkSessionMetadata "s2" "Android 14" 1)).

Definition db_user : gmap string UserProfile := {[ "u2" := user_u2 ]}.

(** The owner of the installation. *)
Definition owner_o1 : UserProfile :=
  mkUserProfile "o1" "owner@flexer.io" true true true "s0"
    (Some [mkSessionMetadata "s0" "Macintosh; Intel Mac OS X 10_15_7" 7])
    None None.

(** The owner and the standard user with a pending request. *)
Definition db_office : gmap string UserProfile :=
  <["o1" := owner_o1]> db_user.

(** ** Further code of the client and of the console *)

(** [handleLogout] of [App.tsx]: after [signOut], the stored session id is
    removed. The function maps the content of [localStorage.flexer_sid]
    to its content afterwards. *)
Definition handleLogout (stored : option string) : option string := None.

(** [securityRequests] of [AdminPanel.tsx]: the users listed on the
    Signals tab, [users.filter(u => u.pendingSessionId)]. *)
Definition securityRequests (users : list UserProfile) : list UserProfile :=
  filter (λ u, truthy (pendingSessionId u) = true) users.

(** The Devices tab shows the Revoke button of an entry when
    [s.sid !== currentSid], where [currentSid] is
    [localStorage.getItem('flexer_sid')], possibly [null]. *)
Definition revokeOffered (currentSid : option string) (s : SessionMetadata) : bool :=
  bool_decide (Some (sid s) ≠ currentSid).

(** The document an operation is about: the one its handler addresses. *)
Definition subject (op : Operation) : string :=
  match op with
  | OpSignIn _ firebaseUser => fu_uid firebaseUser
  | OpApprove actor | OpDeny actor | OpRevoke actor _ _ => actor
  | OpToggleApproval target | OpToggleAdmin _ target
  | OpAuthorizeSession target | OpDeleteUser target _ => target
  end.

(** The profile a standard sign-in from another device leaves. *)
Definition with_pending (c : Client) (P : UserProfile) : UserProfile :=
  apply_update
    [W_pendingSessionId (Some (currentSid c));
     W_pendingSessionMetadata (Some (newSessionOf c))] P.

(** The four things a step can do to the collection. *)
Inductive Outcome (op : Operation) (db db' : gmap string UserProfile) : Prop :=
| Unchanged :
    db' = db → Outcome op db db'
| Created (c : Client) (firebaseUser : FirebaseUser) (P : UserProfile) :
    op = OpSignIn c firebaseUser →
    db !! fu_uid firebaseUser = None →
    uid P = fu_uid firebaseUser →
    db' = <[fu_uid firebaseUser := P]> db →
    Outcome op db db'
| Updated (p : UserProfile) (data : list FieldWrite) :
    db !! subject op = Some p →
    db' = <[subject op := apply_update data p]> db →
    (∀ v, W_isAdmin v ∈ data →
       isOwner p = false
       ∧ ∃ actor profile, op = OpToggleAdmin actor (subject op)
                          ∧ db !! actor = Some profile
                          ∧ isOwner profile = true) →
    (∀ v, W_isApproved v ∈ data → op = OpToggleApproval (subject op)) →
    Outcome op db db'
| Deleted (p : UserProfile) :
    op = OpDeleteUser (subject op) true →
    db !! subject op = Some p →
    isOwner p = false →
    db' = delete (subject op) db →
    Outcome op db db'.

(** ** The earlier revision of the console ([src/components/AdminPanel.tsx])

    Its handlers read and write the same documents; they are given here
    over the stored profile. *)

Module LegacyAdminPanel.

Definition handleToggleApproval (key : string) (currentStatus : bool) : list Effect :=
  [Db (UpdateDoc key [W_isApproved (negb currentStatus)])].

Definition handleToggleAdmin (profile targetUser : UserProfile) : list Effect :=
  if negb (isOwner profile) then
    [Alert "Only the Root Owner can manage Admin roles."]
  else if isOwner targetUser then []
  else [Db (UpdateDoc (uid targetUser) [W_isAdmin (negb (isAdmin targetUser))])].

Definition handleAuthorizeSession (user : UserProfile) : list Effect :=
  match pendingSessionId user with
  | Some pending =>
      if truthy_string pending then
        [Db (UpdateDoc (uid user)
               [W_lastSessionId pending;
                W_pendingSessionId None;
                W_pendingSessionMetadata None])]
      else []
  | None => []
  end.

Definition handleDeleteUser (user : UserProfile) (confirmed : bool) : list Effect :=
  if isOwner user then [Alert "CRITICAL ERROR: Root Owner cannot be deleted."]
  else if confirmed then [Db (DeleteDoc (uid user))]
  else [].

End LegacyAdminPanel.

(** ** Strings

    A string is the sequence of the UTF-8 bytes of the JavaScript string
    it stands for. The separators and patterns below are ASCII, so
    searching for them byte by byte finds the same places as searching
    the UTF-16 code units. *)

Fixpoint has_char (ch : ascii) (s : string) : bool :=
  match s with
  | EmptyString => false
  | String x rest => bool_decide (x = ch) || has_char ch rest
  end.

(** [s.split(sep)] for a non-empty [sep]: the scan goes left to right;
    [skip] counts the characters of a separator just found that are still
    to be passed over, [piece] is the piece being collected. *)
Fixpoint split_go (sep s : string) (skip : nat) (piece : string) : list string :=
  match s with
  | EmptyString => [piece]
  | String x rest =>
      match skip with
      | S k => split_go sep rest k piece
      | O =>
          if String.prefix sep s
          then piece :: split_go sep rest (String.length sep - 1) ""
          else split_go sep rest 0 (piece +:+ String x "")
      end
  end.

Definition split (sep s : string) : list string := split_go sep s 0 "".

(** [getDeviceName] of [App.tsx], as a function of [navigator.userAgent]:
    [userAgent.split(') ')[0].split('(')[1] || 'Unknown Device']. *)
Definition getDeviceName (userAgent : string) : string :=
  match split "(" (default "" (head (split ") " userAgent))) !! 1%nat with
  | Some name => if truthy_string name then name else "Unknown Device"
  | None => "Unknown Device"
  end.

(** ** The lookup URL of [UserDashboard.handleLookup] *)

Definition in_range (lo hi : N) (ch : ascii) : bool :=
  ((lo <=? N_of_ascii ch) && (N_of_ascii ch <=? hi))%N.

(** The characters [encodeURIComponent] leaves as they are:
    [A-Z a-z 0-9 - _ . ! ~ * ' ( )]. *)
Definition unreserved (ch : ascii) : bool :=
  in_range 48 57 ch || in_range 65 90 ch || in_range 97 122 ch
  || bool_decide (ch ∈ ["-"; "_"; "."; "!"; "~"; "*"; "'"; "("; ")"]%char).

Definition hex_digit (n : N) : ascii :=
  ascii_of_N (if (n <? 10)%N then 48 + n else 55 + n)%N.

(** [%XX] with upper-case hexadecimal digits. *)
Definition percent_encode (ch : ascii) : string :=
  String "%" (String (hex_digit (N_of_ascii ch / 16))
                (String (hex_digit (N_of_ascii ch mod 16)) "")).

(** [encodeURIComponent] on the UTF-8 bytes of its argument: every byte
    that is not an unreserved character is escaped. *)
Fixpoint encodeURIComponent (s : string) : string :=
  match s with
  | EmptyString => ""
  | String ch rest =>
      (if unreserved ch then String ch "" else percent_encode ch)
      +:+ encodeURIComponent rest
  end.

Fixpoint string_drop (n : nat) (s : string) : string :=
  match n, s with
  | O, _ => s
  | S k, EmptyString => ""
  | S k, String _ rest => string_drop k rest
  end.

(** [s.replace(pattern, replacement)] with a string pattern: the first
    occurrence is replaced. The replacement is inserted as it is, which is
    what JavaScript does when it contains no [$]. *)
Fixpoint replace (pattern replacement s : string) : string :=
  match s with
  | EmptyString => ""
  | String x rest =>
      if String.prefix pattern s
      then replacement +:+ string_drop (String.length pattern) s
      else String x (replace pattern replacement rest)
  end.

(** The fields of [OSINTTool] the lookup reads; an absent [useProxy] is
    falsy. *)
Record OSINTTool := mkOSINTTool {
  apiUrl : string;
  useProxy : option bool
}.

(** The URL [handleLookup] hands to [fetch]. *)
Definition lookupUrl (selectedTool : OSINTTool) (lookupValue : string) : string :=
  let finalUrl :=
    replace "{query}" (encodeURIComponent lookupValue) (apiUrl selectedTool) in
  if default false (useProxy selectedTool)
  then "https://api.allorigins.win/get?url=" +:+ encodeURIComponent finalUrl
  else finalUrl.

(** The value of an upper-case hexadecimal digit, used to read an escape
    back. *)
Definition hex_value (ch : ascii) : N :=
  if in_range 48 57 ch then N_of_ascii ch - 48 else N_of_ascii ch - 55.

(** ** The approval gate of [UserDashboard]

    The component returns the Authorization Required screen, and does not
    subscribe to the [tools] collection, unless [profile.isApproved]. *)

Inductive DashboardView := AuthorizationRequired | CommandHub.

Definition userDashboard (profile : UserProfile) : DashboardView :=
  if negb (isApproved profile) then AuthorizationRequired else CommandHub.

Definition toolsSubscribed (profile : UserProfile) : bool :=
  if negb (isApproved profile) then false else true.

(** ** The earlier revision against the data model's invariant *)

(** The structural invariant on a profile of the earlier revision, whose
    type has no [authorizedSessions]: a privileged profile has no pending
    request. *)
Definition legacy_structural (p : Legacy.UserProfile) : Prop :=
  if Legacy.isAdmin p || Legacy.isOwner p
  then Legacy.pendingSessionId p = None ∧ Legacy.pendingSessionMetadata p = None
  else True.

(** The identity's document after the writes of the earlier sign-in
    handler: [setDoc] stores the document, [updateDoc] changes the fields
    it names. *)
Definition legacy_after (ops : list Legacy.DbOp)
    (userDoc : option Legacy.UserProfile) : option Legacy.UserProfile :=
  foldl (λ d op,
           match op with
           | Legacy.SetDoc _ data => Some data
           | Legacy.UpdateDoc _ data => Legacy.apply_update data <$> d
           end) userDoc ops.

(** What the earlier sign-in handler writes when the session differs. *)
Definition legacy_pending_update (c : Client) : list Legacy.FieldWrite :=
  [Legacy.W_pendingSessionId (Some (currentSid c));
   Legacy.W_pendingSessionMetadata
     (Some (Legacy.mkPendingMetadata (deviceLabel c) (now c)))].

(** An admin with two authorized devices, ["s0"] and ["s1"]. *)
Definition admin_two_devices : UserProfile :=
  mkUserProfile "u1" "admin@flexer.io" true false true "s0"
    (Some [mkSessionMetadata "s0" "X11; Linux x86_64" 1;
           mkSessionMetadata "s1" "Android 14" 2]) None None.

(** * Properties *)

(** ** Basic facts about the store and the session list *)

Lemma run_nil (db : gmap string UserProfile) : run [] db = db.
Proof. reflexivity. Qed.

Lemma run_update_present (db : gmap string UserProfile) key data p :
  db !! key = Some p →
  run [Db (UpdateDoc key data)] db = <[key := apply_update data p]> db.
Proof. intros Hp. unfold run; simpl. by rewrite Hp. Qed.

Lemma run_update_absent (db : gmap string UserProfile) key data :
  db !! key = None → run [Db (UpdateDoc key data)] db = db.
Proof. intros Hp. unfold run; simpl. by rewrite Hp. Qed.

Lemma someSid_spec (field : option (list SessionMetadata)) (s : string) :
  someSid field s = true ↔ ∃ m, m ∈ default [] field ∧ sid m = s.
Proof.
  destruct field as [l|]; simpl.
  - rewrite existsb_exists. split.
    + intros (m & Hin & Hm). exists m. split; [by apply list_elem_of_In |].
      by apply bool_decide_eq_true in Hm.
    + intros (m & Hin & Hm). exists m. split; [by apply list_elem_of_In |].
      by apply bool_decide_eq_true.
  - split; [done |]. intros (m & Hin & _). by apply elem_of_nil in Hin.
Qed.

Lemma someSid_false_fresh (field : option (list SessionMetadata)) (m : SessionMetadata) :
  someSid field (sid m) = false → m ∉ default [] field.
Proof.
  intros Hf Hin.
  assert (someSid field (sid m) = true) as Ht by (apply someSid_spec; eauto).
  congruence.
Qed.

Lemma arrayUnion_fresh (field : option (list SessionMetadata)) (m : SessionMetadata) :
  someSid field (sid m) = false → arrayUnion m field = default [] field ++ [m].
Proof.
  intros Hf. unfold arrayUnion; simpl.
  rewrite bool_decide_eq_false_2; [done |]. by apply someSid_false_fresh.
Qed.

Lemma someSid_app_last (l : list SessionMetadata) (m : SessionMetadata) :
  someSid (Some (l ++ [m])) (sid m) = true.
Proof.
  apply someSid_spec. exists m. split; [| done].
  simpl. apply elem_of_app. right. by apply list_elem_of_singleton.
Qed.

Lemma filter_sid_none (l : list SessionMetadata) (s : string) :
  someSid (Some l) s = false → filter (λ m, sid m = s) l = [].
Proof.
  intros Hf. induction l as [| m l IH]; [done |].
  simpl in Hf. apply orb_false_iff in Hf as [Hm Hl].
  apply bool_decide_eq_false in Hm.
  rewrite filter_cons_False; [| done]. by apply IH.
Qed.

(** A privileged profile whose list holds the local id is shown the
    application, whatever else the profile says. *)
Lemma sessionState_privileged (p : UserProfile) (s : string) (v : bool) :
  isPrivileged p = true →
  someSid (authorizedSessions p) s = true →
  sessionState p s v = AUTHORIZED.
Proof.
  intros Hpriv Hs. unfold sessionState, render, isStale.
  rewrite Hpriv, Hs; simpl. by destruct (isAdmin p && v).
Qed.

(** The four cases of the sign-in handler on an existing profile. *)
Section sign_in_cases.
Context (c : Client) (firebaseUser : FirebaseUser) (P : UserProfile).

Lemma onAuthStateChanged_privileged_known :
  isPrivileged P = true →
  someSid (authorizedSessions P) (currentSid c) = true →
  onAuthStateChanged c firebaseUser (Some P) = [].
Proof. intros Hp Hs. unfold onAuthStateChanged. by rewrite Hp, Hs. Qed.

Lemma onAuthStateChanged_privileged_new :
  isPrivileged P = true →
  someSid (authorizedSessions P) (currentSid c) = false →
  onAuthStateChanged c firebaseUser (Some P)
  = [Db (UpdateDoc (fu_uid firebaseUser)
           [W_authorizedSessions_arrayUnion (newSessionOf c)])].
Proof. intros Hp Hs. unfold onAuthStateChanged. by rewrite Hp, Hs. Qed.

Lemma onAuthStateChanged_standard_same :
  isPrivileged P = false →
  lastSessionId P = currentSid c →
  onAuthStateChanged c firebaseUser (Some P) = [].
Proof.
  intros Hp Hs. unfold onAuthStateChanged. rewrite Hp.
  by rewrite bool_decide_eq_false_2 by (intros Hne; by apply Hne).
Qed.

Lemma onAuthStateChanged_standard_other :
  isPrivileged P = false →
  lastSessionId P ≠ currentSid c →
  onAuthStateChanged c firebaseUser (Some P)
  = [Db (UpdateDoc (fu_uid firebaseUser)
           [W_pendingSessionId (Some (currentSid c));
            W_pendingSessionMetadata (Some (newSessionOf c))])].
Proof.
  intros Hp Hs. unfold onAuthStateChanged. rewrite Hp.
  by rewrite bool_decide_eq_true_2.
Qed.
End sign_in_cases.

(** ** Sign-in of a privileged account *)

(** The revision with [authorizedSessions]: for an existing privileged
    profile [P] and any local session id [S], the sign-in evaluation
    writes neither [pendingSessionId] nor [pendingSessionMetadata] and
    leaves both as they were. If no entry of [authorizedSessions] has
    session id [S], the record [{S, deviceLabel, now}] is appended at the
    end of the list; in every case the session is then AUTHORIZED. A
    second evaluation with the same [S] (whatever the device label and the
    clock then are) changes nothing in the store, so the list holds
    exactly one entry with that id. *)
Lemma privileged_sign_in_later_revision
    (c : Client) (firebaseUser : FirebaseUser)
    (db : gmap string UserProfile) (P : UserProfile) :
  db !! fu_uid firebaseUser = Some P →
  isPrivileged P = true →
  let S := currentSid c in
  (∀ r, r ∈ requests (onAuthStateChanged c firebaseUser (Some P)) →
        ("pendingSessionId" ∉ written_fields r)
        ∧ ("pendingSessionMetadata" ∉ written_fields r))
  ∧ ∃ P', signIn c firebaseUser db !! fu_uid firebaseUser = Some P'
      ∧ pendingSessionId P' = pendingSessionId P
      ∧ pendingSessionMetadata P' = pendingSessionMetadata P
      ∧ (someSid (authorizedSessions P) S = false →
           sessions P' = sessions P ++ [mkSessionMetadata S (deviceLabel c) (now c)]
           ∧ length (filter (λ m, sid m = S) (sessions P')) = 1)
      ∧ (∀ isAdminView, sessionState P' S isAdminView = AUTHORIZED)
      ∧ (∀ c', currentSid c' = S →
           signIn c' firebaseUser (signIn c firebaseUser db)
           = signIn c firebaseUser db).
Proof.
  intros Hdb Hpriv S. unfold signIn. rewrite Hdb.
  destruct (someSid (authorizedSessions P) (currentSid c)) eqn:Hsome.
  - rewrite onAuthStateChanged_privileged_known by done. split.
    { intros r Hr. by apply elem_of_nil in Hr. }
    exists P. rewrite run_nil. split_and!; try done.
    + intros Hf. subst S. congruence.
    + intros isAdminView. by apply sessionState_privileged.
    + intros c' Hc'. rewrite Hdb.
      rewrite onAuthStateChanged_privileged_known; [done | done |].
      by rewrite Hc'.
  - rewrite onAuthStateChanged_privileged_new by done. split.
    { intros r Hr. apply list_elem_of_singleton in Hr as ->. simpl.
      split; intros Hin; apply list_elem_of_singleton in Hin; discriminate. }
    rewrite (run_update_present _ _ _ P Hdb).
    set (m := newSessionOf c).
    assert (arrayUnion m (authorizedSessions P) = sessions P ++ [m]) as HU
      by (by apply arrayUnion_fresh).
    exists (apply_update [W_authorizedSessions_arrayUnion m] P).
    rewrite lookup_insert_eq. split_and!; try done.
    + intros _. unfold sessions at 1 3; simpl. rewrite HU. split; [done |].
      rewrite filter_app, filter_sid_none.
      * by rewrite filter_cons_True.
      * unfold sessions. by destruct (authorizedSessions P).
    + intros isAdminView. apply sessionState_privileged; [done |].
      simpl. rewrite HU. apply (someSid_app_last _ m).
    + intros c' Hc'.
      rewrite onAuthStateChanged_privileged_known; [done | done |].
      simpl. rewrite HU, Hc'. apply (someSid_app_last _ m).
Qed.

(** What the earlier revision's sign-in handler does on an existing
    profile, whatever its role. *)
Lemma legacy_sign_in_cases
    (c : Client) (firebaseUser : FirebaseUser) (L : Legacy.UserProfile) :
  (Legacy.lastSessionId L ≠ currentSid c →
     Legacy.onAuthStateChanged c firebaseUser (Some L)
     = [Legacy.UpdateDoc (fu_uid firebaseUser) (legacy_pending_update c)])
  ∧ (Legacy.lastSessionId L = currentSid c →
       Legacy.onAuthStateChanged c firebaseUser (Some L) = []).
Proof.
  unfold Legacy.onAuthStateChanged. split; intros Hl.
  - by rewrite bool_decide_eq_true_2.
  - by rewrite bool_decide_eq_false_2 by (intros Hne; by apply Hne).
Qed.

Lemma legacy_pending_self
    (c : Client) (L : Legacy.UserProfile) :
  state_of (Legacy.render (Legacy.apply_update (legacy_pending_update c) L)
              (currentSid c))
  = PENDING_SELF.
Proof.
  destruct L. unfold Legacy.render; simpl. by rewrite bool_decide_eq_true_2.
Qed.

(** C1, refuted as stated on the earlier revision ([src/App.tsx]): the
    admin of [db_admin], authorized on ["s0"], signs in from ["s1"]. The
    handler has no test for privileged accounts: it writes
    [pendingSessionId] and [pendingSessionMetadata], appends nothing, and
    the new device waits for approval. *)
Lemma C1_earlier_revision_counterexample :
  let c := mkClient "s1" "Android 14" 2 in
  let firebaseUser := mkFirebaseUser "u1" (Some "admin@flexer.io") in
  let written := legacy_after
                   (Legacy.onAuthStateChanged c firebaseUser
                      (Some (as_legacy admin_u1)))
                   (Some (as_legacy admin_u1)) in
  isPrivileged admin_u1 = true
  ∧ someSid (authorizedSessions admin_u1) "s1" = false
  ∧ Legacy.requests
      (Legacy.onAuthStateChanged c firebaseUser (Some (as_legacy admin_u1)))
    = [UpdateRequest "u1"
         [("pendingSessionId", Plain (JString "s1"));
          ("pendingSessionMetadata",
           Plain (JObject [("deviceName", JString "Android 14");
                           ("timestamp", JNumber 2)]))]]
  ∧ Legacy.pendingSessionId <$> written = Some (Some "s1")
  ∧ (λ L, state_of (Legacy.render L "s1")) <$> written = Some PENDING_SELF.
Proof. vm_compute. split_and!; done. Qed.

(** C1, amended. In the revision with [authorizedSessions] ([part_002]),
    for every existing privileged profile [P] and local session id [S] the
    evaluation never sets [pendingSessionId] or [pendingSessionMetadata];
    if no entry of [authorizedSessions] has session id [S], the record
    [{S, deviceLabel, now}] is appended and the state is AUTHORIZED, and a
    second evaluation with the same [S] adds no second entry. In the
    earlier revision ([src/App.tsx]), which has no privileged branch, the
    evaluation of the same profile writes [pendingSessionId := S] and
    [pendingSessionMetadata := {deviceLabel, now}] and nothing else when
    [S ≠ lastSessionId] (the state is then PENDING_SELF), and writes
    nothing when [S = lastSessionId]. *)
Theorem C1_privileged_self_authorizes
    (c : Client) (firebaseUser : FirebaseUser)
    (db : gmap string UserProfile) (P : UserProfile) :
  db !! fu_uid firebaseUser = Some P →
  isPrivileged P = true →
  let S := currentSid c in
  ((∀ r, r ∈ requests (onAuthStateChanged c firebaseUser (Some P)) →
         ("pendingSessionId" ∉ written_fields r)
         ∧ ("pendingSessionMetadata" ∉ written_fields r))
   ∧ ∃ P', signIn c firebaseUser db !! fu_uid firebaseUser = Some P'
       ∧ pendingSessionId P' = pendingSessionId P
       ∧ pendingSessionMetadata P' = pendingSessionMetadata P
       ∧ (someSid (authorizedSessions P) S = false →
            sessions P' = sessions P ++ [mkSessionMetadata S (deviceLabel c) (now c)]
            ∧ length (filter (λ m, sid m = S) (sessions P')) = 1)
       ∧ (∀ isAdminView, sessionState P' S isAdminView = AUTHORIZED)
       ∧ (∀ c', currentSid c' = S →
            signIn c' firebaseUser (signIn c firebaseUser db)
            = signIn c firebaseUser db))
  ∧ (lastSessionId P ≠ S →
       Legacy.onAuthStateChanged c firebaseUser (Some (as_legacy P))
       = [Legacy.UpdateDoc (fu_uid firebaseUser) (legacy_pending_update c)]
       ∧ written_fields
           <$> Legacy.requests
                 (Legacy.onAuthStateChanged c firebaseUser (Some (as_legacy P)))
         = [["pendingSessionId"; "pendingSessionMetadata"]]
       ∧ Legacy.pendingSessionId
           (Legacy.apply_update (legacy_pending_update c) (as_legacy P))
         = Some S
       ∧ Legacy.pendingSessionMetadata
           (Legacy.apply_update (legacy_pending_update c) (as_legacy P))
         = Some (Legacy.mkPendingMetadata (deviceLabel c) (now c))
       ∧ state_of (Legacy.render
                     (Legacy.apply_update (legacy_pending_update c) (as_legacy P))
                     S)
         = PENDING_SELF)
  ∧ (lastSessionId P = S →
       Legacy.onAuthStateChanged c firebaseUser (Some (as_legacy P)) = []).
Proof.
  intros Hdb Hpriv S.
  destruct (legacy_sign_in_cases c firebaseUser (as_legacy P)) as [Hother Hsame].
  assert (Legacy.lastSessionId (as_legacy P) = lastSessionId P) as HL
    by (by destruct P).
  rewrite HL in Hother, Hsame.
  split; [| split].
  - exact (privileged_sign_in_later_revision c firebaseUser db P Hdb Hpriv).
  - intros Hl. rewrite Hother by done. split_and!; try done.
    apply legacy_pending_self.
  - exact Hsame.
Qed.

Lemma C1_privileged_self_authorizes_witness :
  db_admin !! "u1" = Some admin_u1
  ∧ isPrivileged admin_u1 = true
  ∧ ∃ P', signIn (mkClient "s1" "Android 14" 2)
            (mkFirebaseUser "u1" (Some "admin@flexer.io")) db_admin !! "u1"
          = Some P'
        ∧ sessions P'
          = [mkSessionMetadata "s0" "X11; Linux x86_64" 1;
             mkSessionMetadata "s1" "Android 14" 2]
        ∧ pendingSessionId P' = None.
Proof.
  split; [reflexivity |]. split; [reflexivity |].
  destruct (C1_privileged_self_authorizes (mkClient "s1" "Android 14" 2)
              (mkFirebaseUser "u1" (Some "admin@flexer.io")) db_admin admin_u1
              eq_refl eq_refl)
    as [[_ (P' & Hlook & Hpend & _ & Happ & _)] _].
  exists P'. split; [exact Hlook |]. split.
  - exact (proj1 (Happ eq_refl)).
  - exact Hpend.
Defined.

(** ** Sign-in of a standard account from the device that is already pending *)




(** ** Approve, deny and the admin override *)

(** The local session id is never the empty string, the one string the
    guards [!profile.pendingSessionId] and [!sid] read as absent. *)
Lemma getLocalSessionId_truthy (stored : option string) (fresh : string) :
  truthy_string fresh = true →
  truthy_string (getLocalSessionId stored fresh).1 = true.
Proof.
  intros Hfresh. unfold getLocalSessionId.
  destruct stored as [s|]; simpl; [| done].
  by destruct (truthy_string s) eqn:Hs.
Qed.

Lemma truthy_string_true (s : string) : s ≠ "" → truthy_string s = true.
Proof. intros Hs. unfold truthy_string. by rewrite bool_decide_eq_false_2. Qed.

(** A standard profile is shown the application to the device named by
    [lastSessionId] once nothing is pending. *)
Lemma sessionState_standard_last (p : UserProfile) (v : bool) :
  isPrivileged p = false →
  pendingSessionId p = None →
  sessionState p (lastSessionId p) v = AUTHORIZED.
Proof.
  intros Hstd Hpend. unfold sessionState, render, isStale.
  rewrite Hstd, Hpend; simpl.
  rewrite (bool_decide_eq_false_2 (lastSessionId p ≠ lastSessionId p))
    by (intros Hne; by apply Hne).
  simpl. by destruct (isAdmin p && v).
Qed.

(** C3. For a standard profile with [lastSessionId = A] and
    [pendingSessionId = B], [B ≠ A] ([B] a session id, hence not the empty
    string), [approve()] issues one update that sets [lastSessionId] to [B]
    and [pendingSessionId], [pendingSessionMetadata] to null; on the
    updated profile the stale determination with [A] yields STALE and with
    [B] yields AUTHORIZED. *)
Theorem C3_approve_switches_session (P : UserProfile) (A B : string) :
  isPrivileged P = false →
  lastSessionId P = A →
  pendingSessionId P = Some B →
  B ≠ A →
  B ≠ "" →
  let P' := apply_update (approval_update B) P in
  approvePendingSession (Some P) = [Db (UpdateDoc (uid P) (approval_update B))]
  ∧ (∀ db : gmap string UserProfile, db !! uid P = Some P →
       run (approvePendingSession (Some P)) db = <[uid P := P']> db)
  ∧ lastSessionId P' = B
  ∧ pendingSessionId P' = None
  ∧ pendingSessionMetadata P' = None
  ∧ isStale P' A = true
  ∧ (∀ isAdminView, sessionState P' A isAdminView = STALE)
  ∧ isStale P' B = false
  ∧ (∀ isAdminView, sessionState P' B isAdminView = AUTHORIZED).
Proof.
  intros Hstd HA HB Hne Hnonempty P'.
  assert (approvePendingSession (Some P)
          = [Db (UpdateDoc (uid P) (approval_update B))]) as Heff.
  { unfold approvePendingSession. rewrite HB. by rewrite truthy_string_true. }
  assert (isPrivileged P' = false) as Hstd' by exact Hstd.
  assert (isStale P' A = true) as HstaleA.
  { unfold isStale. rewrite Hstd'. simpl.
    by rewrite !bool_decide_eq_true_2. }
  split_and!; try done.
  - intros db Hdb. rewrite Heff. by apply run_update_present.
  - intros isAdminView. unfold sessionState, render. by rewrite HstaleA.
  - unfold isStale. rewrite Hstd'. simpl.
    by rewrite (bool_decide_eq_false_2 (B ≠ B)) by (intros H; by apply H).
  - intros isAdminView.
    by apply (sessionState_standard_last P' isAdminView).
Qed.

Lemma C3_approve_switches_session_witness :
  isPrivileged user_u2 = false
  ∧ lastSessionId user_u2 = "s1"
  ∧ pendingSessionId user_u2 = Some "s2"
  ∧ "s2" ≠ "s1"
  ∧ "s2" ≠ ""
  ∧ approvePendingSession (Some user_u2)
    = [Db (UpdateDoc "u2" (approval_update "s2"))]
  ∧ sessionState (apply_update (approval_update "s2") user_u2) "s1" true = STALE
  ∧ sessionState (apply_update (approval_update "s2") user_u2) "s2" true = AUTHORIZED.
Proof.
  assert ("s2" ≠ "s1") as Hne by (by vm_compute).
  assert ("s2" ≠ "") as Hnonempty by (by vm_compute).
  split; [reflexivity |]. split; [reflexivity |]. split; [reflexivity |].
  split; [exact Hne |]. split; [exact Hnonempty |].
  destruct (C3_approve_switches_session user_u2 "s1" "s2"
              eq_refl eq_refl eq_refl Hne Hnonempty)
    as (Heff & _ & _ & _ & _ & _ & HA & _ & HB).
  split; [exact Heff |]. split; [exact (HA true) | exact (HB true)].
Defined.

(** C4. [deny()] issues one update that sets [pendingSessionId] and
    [pendingSessionMetadata] to null; every other field of the profile
    ([uid], [email], [isAdmin], [isOwner], [isApproved], [lastSessionId],
    [authorizedSessions]) keeps its value. Afterwards the device named by
    the unchanged [lastSessionId] is AUTHORIZED: always for a standard
    profile, and for any profile on which it was not STALE before. *)
Theorem C4_deny_clears_pending_only (P : UserProfile) :
  let P' := apply_update denial_update P in
  denyPendingSession (Some P) = [Db (UpdateDoc (uid P) denial_update)]
  ∧ (∀ db : gmap string UserProfile, db !! uid P = Some P →
       run (denyPendingSession (Some P)) db = <[uid P := P']> db)
  ∧ P' = mkUserProfile (uid P) (email P) (isAdmin P) (isOwner P)
           (isApproved P) (lastSessionId P) (authorizedSessions P) None None
  ∧ (isPrivileged P = false →
       ∀ isAdminView, sessionState P' (lastSessionId P) isAdminView = AUTHORIZED)
  ∧ (∀ isAdminView,
       sessionState P (lastSessionId P) isAdminView ≠ STALE →
       sessionState P' (lastSessionId P) isAdminView = AUTHORIZED).
Proof.
  intros P'.
  assert (isPrivileged P = false →
          ∀ v, sessionState P' (lastSessionId P) v = AUTHORIZED) as Hstd.
  { intros Hstd v. by apply (sessionState_standard_last P' v). }
  split_and!; try done.
  - intros db Hdb. by apply run_update_present.
  - intros v Hnot. destruct (isPrivileged P) eqn:Hpriv; [| by apply Hstd].
    apply sessionState_privileged; [done |]. simpl.
    destruct (someSid (authorizedSessions P) (lastSessionId P)) eqn:Hs; [done |].
    exfalso. apply Hnot. unfold sessionState, render, isStale.
    by rewrite Hpriv, Hs.
Qed.

Lemma C4_deny_clears_pending_only_witness :
  isPrivileged user_u2 = false
  ∧ apply_update denial_update user_u2
    = mkUserProfile "u2" "user@example.org" false false true "s1" (Some [])
        None None
  ∧ sessionState (apply_update denial_update user_u2) "s1" false = AUTHORIZED.
Proof.
  split; [reflexivity |].
  destruct (C4_deny_clears_pending_only user_u2) as (_ & _ & Hframe & Hauth & _).
  split; [exact Hframe | exact (Hauth eq_refl false)].
Defined.

(** C7. The admin override [handleAuthorizeSession(user)] issues exactly
    the effects of [approve()] run on the same profile. When a pending
    request is there (a non-empty session id), both issue the one update
    that sets [lastSessionId] to it and clears [pendingSessionId] and
    [pendingSessionMetadata]; with no pending request both issue nothing. *)
Theorem C7_authorizeSession_is_approve (user : UserProfile) :
  handleAuthorizeSession user = approvePendingSession (Some user)
  ∧ (∀ pending, pendingSessionId user = Some pending → pending ≠ "" →
       handleAuthorizeSession user
       = [Db (UpdateDoc (uid user) (approval_update pending))]
       ∧ lastSessionId (apply_update (approval_update pending) user) = pending
       ∧ pendingSessionId (apply_update (approval_update pending) user) = None
       ∧ pendingSessionMetadata (apply_update (approval_update pending) user) = None)
  ∧ (pendingSessionId user = None →
       writes (handleAuthorizeSession user) = []
       ∧ writes (approvePendingSession (Some user)) = []).
Proof.
  split_and!.
  - reflexivity.
  - intros pending Hp Hne. unfold handleAuthorizeSession.
    rewrite Hp. by rewrite truthy_string_true.
  - intros Hp. unfold handleAuthorizeSession, approvePendingSession.
    by rewrite Hp.
Qed.

Lemma C7_authorizeSession_is_approve_witness :
  pendingSessionId user_u2 = Some "s2"
  ∧ "s2" ≠ ""
  ∧ handleAuthorizeSession user_u2 = approvePendingSession (Some user_u2)
  ∧ handleAuthorizeSession user_u2
    = [Db (UpdateDoc "u2" (approval_update "s2"))].
Proof.
  assert ("s2" ≠ "") as Hnonempty by (by vm_compute).
  split; [reflexivity |]. split; [exact Hnonempty |].
  destruct (C7_authorizeSession_is_approve user_u2) as (Heq & Hsome & _).
  split; [exact Heq |].
  exact (proj1 (Hsome "s2" eq_refl Hnonempty)).
Defined.

(** ** First sign-in *)

(** The revision with [authorizedSessions]: for an identity with no
    profile document and any local session id [S], the sign-in evaluation
    stores a new profile under the identity's uid with
    [isOwner = (email = ROOT_OWNER_EMAIL)], [isAdmin = isOwner],
    [isApproved = isOwner], [lastSessionId = S], [pendingSessionId = null],
    and [authorizedSessions = [{S, deviceLabel, now}]] for the owner, [[]]
    otherwise; the creating session is AUTHORIZED on it. *)
Lemma first_sign_in_later_revision
    (c : Client) (firebaseUser : FirebaseUser) (db : gmap string UserProfile) :
  db !! fu_uid firebaseUser = None →
  let S := currentSid c in
  let owner := bool_decide (fu_email firebaseUser = Some ROOT_OWNER_EMAIL) in
  ∃ P, onAuthStateChanged c firebaseUser (db !! fu_uid firebaseUser)
       = [Db (SetDoc (fu_uid firebaseUser) P)]
     ∧ signIn c firebaseUser db !! fu_uid firebaseUser = Some P
     ∧ uid P = fu_uid firebaseUser
     ∧ email P = default "" (fu_email firebaseUser)
     ∧ isOwner P = owner
     ∧ isAdmin P = owner
     ∧ isApproved P = owner
     ∧ lastSessionId P = S
     ∧ pendingSessionId P = None
     ∧ pendingSessionMetadata P = None
     ∧ authorizedSessions P
       = Some (if owner
               then [mkSessionMetadata S (deviceLabel c) (now c)]
               else [])
     ∧ (∀ isAdminView, sessionState P S isAdminView = AUTHORIZED).
Proof.
  intros Hdb S owner. unfold signIn. rewrite Hdb.
  eexists. split; [reflexivity |].
  split; [unfold run; simpl; apply lookup_insert_eq |].
  split_and!; try reflexivity.
  intros isAdminView. fold owner. destruct owner eqn:Howner.
  - apply sessionState_privileged; [done |].
    apply (someSid_app_last [] (newSessionOf c)).
  - by apply (sessionState_standard_last
                (mkUserProfile _ _ false false false S (Some []) None None)).
Qed.

(** C5, refuted as stated on the earlier revision ([src/App.tsx]): the
    owner signs up. The document handed to [setDoc] has no
    [authorizedSessions] key, where the claim has [[{S, deviceLabel, now}]]. *)
Lemma C5_earlier_revision_counterexample :
  let c := mkClient "s0" "Macintosh; Intel Mac OS X 10_15_7" 7 in
  let firebaseUser := mkFirebaseUser "o1" (Some "owner@flexer.io") in
  fu_email firebaseUser = Some ROOT_OWNER_EMAIL
  ∧ Legacy.requests (Legacy.onAuthStateChanged c firebaseUser None)
    = [SetRequest "o1"
         [("uid", JString "o1");
          ("email", JString "owner@flexer.io");
          ("isAdmin", JBool true);
          ("isOwner", JBool true);
          ("isApproved", JBool true);
          ("lastSessionId", JString "s0");
          ("pendingSessionId", JNull)]]
  ∧ bool_decide
      ("authorizedSessions"
       ∈ concat (written_fields
                   <$> Legacy.requests
                         (Legacy.onAuthStateChanged c firebaseUser None)))
    = false.
Proof. vm_compute. split_and!; done. Qed.

(** C5, amended. For every identity with no existing profile and every
    local session id [S], the first evaluation creates a profile with
    [isOwner = (email = ROOT_OWNER_EMAIL)], [isAdmin = isOwner],
    [isApproved = isOwner], [lastSessionId = S], [pendingSessionId = null];
    the creating session evaluates as authorized immediately. In the
    revision with [authorizedSessions] ([part_002]) the profile also has
    [authorizedSessions = [{S, deviceLabel, now}]] for the owner and [[]]
    otherwise; in the earlier revision ([src/App.tsx]) the profile has no
    [authorizedSessions] field, for the owner as for anyone else. *)
Theorem C5_first_sign_in_creates_profile
    (c : Client) (firebaseUser : FirebaseUser) (db : gmap string UserProfile) :
  db !! fu_uid firebaseUser = None →
  let S := currentSid c in
  let owner := bool_decide (fu_email firebaseUser = Some ROOT_OWNER_EMAIL) in
  (∃ P, onAuthStateChanged c firebaseUser (db !! fu_uid firebaseUser)
        = [Db (SetDoc (fu_uid firebaseUser) P)]
      ∧ signIn c firebaseUser db !! fu_uid firebaseUser = Some P
      ∧ uid P = fu_uid firebaseUser
      ∧ email P = default "" (fu_email firebaseUser)
      ∧ isOwner P = owner
      ∧ isAdmin P = owner
      ∧ isApproved P = owner
      ∧ lastSessionId P = S
      ∧ pendingSessionId P = None
      ∧ pendingSessionMetadata P = None
      ∧ authorizedSessions P
        = Some (if owner
                then [mkSessionMetadata S (deviceLabel c) (now c)]
                else [])
      ∧ (∀ isAdminView, sessionState P S isAdminView = AUTHORIZED))
  ∧ (∃ L, Legacy.onAuthStateChanged c firebaseUser
            (as_legacy <$> db !! fu_uid firebaseUser)
          = [Legacy.SetDoc (fu_uid firebaseUser) L]
        ∧ Legacy.uid L = fu_uid firebaseUser
        ∧ Legacy.email L = default "" (fu_email firebaseUser)
        ∧ Legacy.isOwner L = owner
        ∧ Legacy.isAdmin L = owner
        ∧ Legacy.isApproved L = owner
        ∧ Legacy.lastSessionId L = S
        ∧ Legacy.pendingSessionId L = None
        ∧ Legacy.pendingSessionMetadata L = None
        ∧ written_fields (Legacy.request_of (Legacy.SetDoc (fu_uid firebaseUser) L))
          = ["uid"; "email"; "isAdmin"; "isOwner"; "isApproved";
             "lastSessionId"; "pendingSessionId"]
        ∧ state_of (Legacy.render L S) = AUTHORIZED).
Proof.
  intros Hdb S owner. split.
  - exact (first_sign_in_later_revision c firebaseUser db Hdb).
  - rewrite Hdb. eexists. split_and!; try reflexivity.
    unfold Legacy.render; simpl.
    by destruct (bool_decide (fu_email firebaseUser = Some ROOT_OWNER_EMAIL)).
Qed.

Lemma C5_first_sign_in_creates_profile_witness :
  (∅ : gmap string UserProfile) !! "o1" = None
  ∧ signIn (mkClient "s0" "Macintosh; Intel Mac OS X 10_15_7" 7)
      (mkFirebaseUser "o1" (Some "owner@flexer.io")) ∅ !! "o1"
    = Some (mkUserProfile "o1" "owner@flexer.io" true true true "s0"
              (Some [mkSessionMetadata "s0" "Macintosh; Intel Mac OS X 10_15_7" 7])
              None None).
Proof.
  assert ((∅ : gmap string UserProfile) !! "o1" = None) as Hnew by reflexivity.
  split; [exact Hnew |].
  destruct (C5_first_sign_in_creates_profile
              (mkClient "s0" "Macintosh; Intel Mac OS X 10_15_7" 7)
              (mkFirebaseUser "o1" (Some "owner@flexer.io")) ∅ Hnew)
    as [(P & _ & Hlook & Huid & Hemail & Ho & Ha & Hap & Hl & Hp & Hm & Hs & _) _].
  transitivity (Some P); [exact Hlook |].
  f_equal. destruct P; simpl in *. by subst.
Defined.

(** ** Revoking a device of a privileged account *)

Lemma revoked_sessions (P : UserProfile) (A : string) :
  match authorizedSessions P with
  | Some l => filter (λ s, sid s ≠ A) l
  | None => []
  end = filter (λ s, sid s ≠ A) (sessions P).
Proof. unfold sessions. by destruct (authorizedSessions P). Qed.

Lemma someSid_filter_out (l : list SessionMetadata) (A : string) :
  someSid (Some (filter (λ s, sid s ≠ A) l)) A = false.
Proof.
  destruct (someSid (Some (filter (λ s, sid s ≠ A) l)) A) eqn:Hs; [| done].
  apply someSid_spec in Hs as (m & Hin & Hm). simpl in Hin.
  apply list_elem_of_filter in Hin as [Hne _]. done.
Qed.

(** C6, refuted as stated: an admin authorized on ["s0"] and ["s1"]
    revokes ["s1"] from the device ["s0"] (the Devices tab offers that
    button), which leaves only the entry of ["s0"]; the next sign-in
    evaluation performed with local session id ["s1"] puts an entry for
    ["s1"] back and the session is AUTHORIZED, not STALE. *)
Lemma C6_revoked_session_counterexample :
  let db : gmap string UserProfile := {[ "u1" := admin_two_devices ]} in
  let revoked := run (handleRevokeDevice admin_two_devices "s1" true) db in
  let later := signIn (mkClient "s1" "Android 14" 9)
                 (mkFirebaseUser "u1" (Some "admin@flexer.io")) revoked in
  isPrivileged admin_two_devices = true
  ∧ someSid (authorizedSessions admin_two_devices) "s1" = true
  ∧ revokeOffered (Some "s0") (mkSessionMetadata "s1" "Android 14" 2) = true
  ∧ sessions <$> (revoked !! "u1")
    = Some [mkSessionMetadata "s0" "X11; Linux x86_64" 1]
  ∧ (λ p, sessionState p "s1" true) <$> (revoked !! "u1") = Some STALE
  ∧ sessions <$> (later !! "u1")
    = Some [mkSessionMetadata "s0" "X11; Linux x86_64" 1;
            mkSessionMetadata "s1" "Android 14" 9]
  ∧ (λ p, sessionState p "s1" true) <$> (later !! "u1") = Some AUTHORIZED
  ∧ (λ p, sessionState p "s1" true) <$> (later !! "u1") ≠ Some STALE.
Proof. vm_compute. split_and!; done. Qed.

(** C6, amended. For a privileged profile whose [authorizedSessions] has
    an entry with session id [A], [revoke(A)] (once the dialog is
    confirmed) writes the list without every entry whose session id is
    [A], keeping the others in order; the render-time stale determination
    on the updated profile with local session id [A] yields STALE. A
    sign-in evaluation run afterwards with [A] appends a fresh entry for
    [A] and the session is AUTHORIZED again. *)
Theorem C6_revoke_then_stale_until_sign_in (P : UserProfile) (A : string) :
  isPrivileged P = true →
  someSid (authorizedSessions P) A = true →
  let kept := filter (λ s, sid s ≠ A) (sessions P) in
  let P' := apply_update [W_authorizedSessions kept] P in
  handleRevokeDevice P A true
  = [Db (UpdateDoc (uid P) [W_authorizedSessions kept])]
  ∧ sessions P' = kept
  ∧ (∀ m, m ∈ sessions P' ↔ m ∈ sessions P ∧ sid m ≠ A)
  ∧ someSid (authorizedSessions P') A = false
  ∧ isStale P' A = true
  ∧ (∀ isAdminView, sessionState P' A isAdminView = STALE)
  ∧ (∀ (c : Client) (firebaseUser : FirebaseUser),
       currentSid c = A →
       let P'' := apply_update
                    [W_authorizedSessions_arrayUnion (newSessionOf c)] P' in
       onAuthStateChanged c firebaseUser (Some P')
       = [Db (UpdateDoc (fu_uid firebaseUser)
                [W_authorizedSessions_arrayUnion (newSessionOf c)])]
       ∧ sessions P'' = kept ++ [mkSessionMetadata A (deviceLabel c) (now c)]
       ∧ (∀ isAdminView, sessionState P'' A isAdminView = AUTHORIZED)).
Proof.
  intros Hpriv Hsome kept P'.
  assert (someSid (authorizedSessions P') A = false) as Hgone
    by apply someSid_filter_out.
  assert (isStale P' A = true) as Hstale.
  { unfold isStale. replace (isPrivileged P') with true by done.
    simpl negb at 1. cbv iota. by rewrite Hgone. }
  split_and!; try done.
  - unfold handleRevokeDevice. by rewrite revoked_sessions.
  - intros m. unfold sessions at 1; simpl. unfold kept.
    by rewrite list_elem_of_filter, (comm and).
  - intros isAdminView. unfold sessionState, render. by rewrite Hstale.
  - intros c firebaseUser Hc P''.
    assert (arrayUnion (newSessionOf c) (Some kept)
            = kept ++ [newSessionOf c]) as HU.
    { rewrite arrayUnion_fresh; [done |]. simpl sid. rewrite Hc.
      apply someSid_filter_out. }
    split_and!.
    + apply onAuthStateChanged_privileged_new; [done |]. by rewrite Hc.
    + unfold sessions, P''; simpl. rewrite HU. unfold newSessionOf. by rewrite Hc.
    + intros isAdminView. apply sessionState_privileged; [done |].
      unfold P''; simpl. rewrite HU.
      replace A with (sid (newSessionOf c)) by done.
      apply someSid_app_last.
Qed.

Lemma C6_revoke_then_stale_until_sign_in_witness :
  isPrivileged admin_two_devices = true
  ∧ someSid (authorizedSessions admin_two_devices) "s1" = true
  ∧ handleRevokeDevice admin_two_devices "s1" true
    = [Db (UpdateDoc "u1"
             [W_authorizedSessions [mkSessionMetadata "s0" "X11; Linux x86_64" 1]])]
  ∧ sessionState
      (apply_update
         [W_authorizedSessions [mkSessionMetadata "s0" "X11; Linux x86_64" 1]]
         admin_two_devices) "s1" true
    = STALE.
Proof.
  split; [reflexivity |]. split; [reflexivity |].
  destruct (C6_revoke_then_stale_until_sign_in admin_two_devices "s1"
              eq_refl eq_refl)
    as (Heff & _ & _ & _ & _ & Hstale & _).
  split; [exact Heff | exact (Hstale true)].
Defined.

(** ** Role toggle and deletion *)

(** C9. When the target profile has [isOwner = true], the admin-role toggle
    and the delete operation issue no write, whoever the calling profile is
    and whatever the dialog answers, so the [users] collection (the owner's
    document with it) is unchanged; the role toggle on any target issues no
    write either when the calling profile is not the owner. *)
Theorem C9_owner_is_protected
    (db : gmap string UserProfile) (profile targetUser : UserProfile)
    (confirmed : bool) :
  (isOwner targetUser = true →
     writes (handleToggleAdmin profile targetUser) = []
     ∧ writes (handleDeleteUser targetUser confirmed) = []
     ∧ run (handleToggleAdmin profile targetUser) db = db
     ∧ run (handleDeleteUser targetUser confirmed) db = db)
  ∧ (isOwner profile = false →
       writes (handleToggleAdmin profile targetUser) = []
       ∧ run (handleToggleAdmin profile targetUser) db = db).
Proof.
  split.
  - intros Howner. unfold handleToggleAdmin, handleDeleteUser.
    rewrite Howner. by destruct (isOwner profile).
  - intros Hcaller. unfold handleToggleAdmin. by rewrite Hcaller.
Qed.

Lemma C9_owner_is_protected_witness :
  isOwner owner_o1 = true
  ∧ isOwner admin_u1 = false
  ∧ run (handleDeleteUser owner_o1 true) {[ "o1" := owner_o1 ]}
    = {[ "o1" := owner_o1 ]}
  ∧ run (handleToggleAdmin owner_o1 owner_o1) {[ "o1" := owner_o1 ]}
    = {[ "o1" := owner_o1 ]}
  ∧ writes (handleToggleAdmin admin_u1 user_u2) = [].
Proof.
  split; [reflexivity |]. split; [reflexivity |].
  destruct (C9_owner_is_protected {[ "o1" := owner_o1 ]} owner_o1 owner_o1 true)
    as [Htarget _].
  destruct (Htarget eq_refl) as (_ & _ & Htoggle & Hdelete).
  split; [exact Hdelete |]. split; [exact Htoggle |].
  exact (proj1 (proj2 (C9_owner_is_protected ∅ admin_u1 user_u2 true) eq_refl)).
Defined.

(** ** The structural invariant *)

Lemma uid_apply_update (data : list FieldWrite) (p : UserProfile) :
  uid (apply_update data p) = uid p.
Proof.
  unfold apply_update. revert p.
  induction data as [| w data IH]; intros p; [done |].
  simpl. rewrite IH. by destruct w.
Qed.

Lemma exec_op_keyed (op : DbOp) (db : gmap string UserProfile) :
  (∀ key data, op = SetDoc key data → uid data = key) →
  keyed db → keyed (exec_op op db).
Proof.
  intros Hset Hdb. destruct op as [key data | key data | key]; simpl.
  - apply map_Forall_insert_2; [by apply (Hset key data) | done].
  - destruct (db !! key) as [p|] eqn:Hp; [| done].
    apply map_Forall_insert_2; [| done].
    rewrite uid_apply_update. by apply (Hdb key p).
  - by apply map_Forall_delete.
Qed.

Lemma run_update_structural (db : gmap string UserProfile) key data :
  structural_db db →
  (∀ p, db !! key = Some p → structural p → structural (apply_update data p)) →
  structural_db (run [Db (UpdateDoc key data)] db).
Proof.
  intros Hdb Hupd. unfold run; simpl.
  destruct (db !! key) as [p|] eqn:Hp; [| done].
  apply map_Forall_insert_2; [| done].
  apply Hupd; [done |]. by apply (Hdb key p).
Qed.

(** Which updates keep a profile inside the invariant. *)
Section structural_updates.
Context (p : UserProfile) (Hp : structural p).

Lemma structural_approval (pending : string) :
  structural (apply_update (approval_update pending) p).
Proof using Hp.
  revert Hp. unfold structural, isPrivileged, sessions.
  destruct p as [? ? a o ? ? ? ? ?]; simpl. by destruct (a || o).
Qed.

Lemma structural_denial : structural (apply_update denial_update p).
Proof using Hp.
  revert Hp. unfold structural, isPrivileged, sessions.
  destruct p as [? ? a o ? ? ? ? ?]; simpl. by destruct (a || o).
Qed.

Lemma structural_isApproved (v : bool) :
  structural (apply_update [W_isApproved v] p).
Proof using Hp. exact Hp. Qed.

Lemma structural_arrayUnion (m : SessionMetadata) :
  isPrivileged p = true →
  structural (apply_update [W_authorizedSessions_arrayUnion m] p).
Proof using Hp.
  intros Hpriv. revert Hp. unfold structural.
  replace (isPrivileged (apply_update [W_authorizedSessions_arrayUnion m] p))
    with (isPrivileged p) by done.
  by rewrite Hpriv.
Qed.

Lemma structural_pending (x : option string) (y : option SessionMetadata) :
  isPrivileged p = false →
  structural
    (apply_update [W_pendingSessionId x; W_pendingSessionMetadata y] p).
Proof using Hp.
  intros Hstd. revert Hp. unfold structural.
  replace (isPrivileged
             (apply_update [W_pendingSessionId x; W_pendingSessionMetadata y] p))
    with (isPrivileged p) by done.
  by rewrite Hstd.
Qed.

Lemma structural_revoke (revoked : string) :
  structural
    (apply_update
       [W_authorizedSessions (filter (λ s, sid s ≠ revoked) (sessions p))] p).
Proof using Hp.
  revert Hp. unfold structural.
  set (kept := filter (λ s, sid s ≠ revoked) (sessions p)).
  replace (isPrivileged (apply_update [W_authorizedSessions kept] p))
    with (isPrivileged p) by done.
  destruct (isPrivileged p); [done |].
  intros Hempty. unfold kept. by rewrite Hempty.
Qed.

(** The role toggle is harmless on a profile that has neither a pending
    request nor an authorized session. *)
Lemma structural_isAdmin (v : bool) :
  pendingSessionId p = None →
  pendingSessionMetadata p = None →
  sessions p = [] →
  structural (apply_update [W_isAdmin v] p).
Proof.
  intros H1 H2 H3. unfold structural.
  by destruct (isPrivileged (apply_update [W_isAdmin v] p)).
Qed.
End structural_updates.

Lemma structural_newProfile (c : Client) (firebaseUser : FirebaseUser) :
  let owner := bool_decide (fu_email firebaseUser = Some ROOT_OWNER_EMAIL) in
  structural
    (mkUserProfile (fu_uid firebaseUser) (default "" (fu_email firebaseUser))
       owner owner owner (currentSid c)
       (Some (if owner then [newSessionOf c] else [])) None None).
Proof. intros owner. unfold structural, isPrivileged; simpl. by destruct owner. Qed.

Lemma run_keyed (es : list Effect) (db : gmap string UserProfile) :
  (∀ key data, Db (SetDoc key data) ∈ es → uid data = key) →
  keyed db → keyed (run es db).
Proof.
  unfold run. revert db.
  induction es as [| e es IH]; intros db Hset Hdb; [done |].
  simpl. apply IH.
  - intros key data Hin. apply Hset. by right.
  - destruct e as [msg | op]; [done |]. simpl.
    apply exec_op_keyed; [| done].
    intros key data ->. apply Hset. by left.
Qed.

(** Only the first sign-in stores a whole document, under its own uid. *)
Lemma effects_of_SetDoc (op : Operation) (db : gmap string UserProfile) key data :
  Db (SetDoc key data) ∈ effects_of op db → uid data = key.
Proof.
  destruct op as [c u | actor | actor | actor revoked confirmed | target
                 | actor target | target | target confirmed]; simpl.
  - unfold onAuthStateChanged.
    destruct (db !! fu_uid u) as [P|].
    + destruct (isPrivileged P);
        [destruct (negb _) | destruct (bool_decide _)];
        intros Hin; try (by apply elem_of_nil in Hin);
        by apply list_elem_of_singleton in Hin.
    + intros Hin. apply list_elem_of_singleton in Hin. by simplify_eq.
  - unfold approvePendingSession.
    destruct (db !! actor) as [p|]; [| by intros Hin; apply elem_of_nil in Hin].
    destruct (pendingSessionId p) as [b|];
      [destruct (truthy_string b) |];
      intros Hin; try (by apply elem_of_nil in Hin);
      by apply list_elem_of_singleton in Hin.
  - unfold denyPendingSession.
    destruct (db !! actor) as [p|]; intros Hin;
      [by apply list_elem_of_singleton in Hin | by apply elem_of_nil in Hin].
  - destruct (db !! actor) as [p|]; [| by intros Hin; apply elem_of_nil in Hin].
    unfold handleRevokeDevice. destruct confirmed; intros Hin;
      [by apply list_elem_of_singleton in Hin | by apply elem_of_nil in Hin].
  - destruct (db !! target) as [p|]; intros Hin;
      [by apply list_elem_of_singleton in Hin | by apply elem_of_nil in Hin].
  - destruct (db !! actor) as [p|]; [| by intros Hin; apply elem_of_nil in Hin].
    destruct (db !! target) as [q|]; [| by intros Hin; apply elem_of_nil in Hin].
    unfold handleToggleAdmin.
    destruct (negb (isOwner p)); [| destruct (isOwner q)]; intros Hin;
      try (by apply elem_of_nil in Hin);
      by apply list_elem_of_singleton in Hin.
  - destruct (db !! target) as [p|]; [| by intros Hin; apply elem_of_nil in Hin].
    unfold handleAuthorizeSession.
    destruct (pendingSessionId p) as [b|];
      [destruct (truthy_string b) |];
      intros Hin; try (by apply elem_of_nil in Hin);
      by apply list_elem_of_singleton in Hin.
  - destruct (db !! target) as [p|]; [| by intros Hin; apply elem_of_nil in Hin].
    unfold handleDeleteUser.
    destruct (isOwner p); [| destruct confirmed]; intros Hin;
      try (by apply elem_of_nil in Hin);
      by apply list_elem_of_singleton in Hin.
Qed.

Lemma step_keyed (op : Operation) (db : gmap string UserProfile) :
  keyed db → keyed (step op db).
Proof.
  intros Hdb. unfold step. apply run_keyed; [| done].
  intros key data. apply effects_of_SetDoc.
Qed.

Lemma step_structural (op : Operation) (db : gmap string UserProfile) :
  is_role_toggle op = false →
  keyed db → structural_db db → structural_db (step op db).
Proof.
  intros Hop Hkey Hdb. unfold step.
  destruct op as [c u | actor | actor | actor revoked confirmed | target
                 | actor target | target | target confirmed];
    simpl in *; [| | | | | done | |].
  - destruct (db !! fu_uid u) as [P|] eqn:HP.
    + destruct (isPrivileged P) eqn:Hpriv.
      * destruct (someSid (authorizedSessions P) (currentSid c)) eqn:Hs.
        -- by rewrite onAuthStateChanged_privileged_known.
        -- rewrite onAuthStateChanged_privileged_new by done.
           apply run_update_structural; [done |].
           intros q Hq Hstr. simplify_eq. by apply structural_arrayUnion.
      * destruct (decide (lastSessionId P = currentSid c)) as [Hl | Hl].
        -- by rewrite onAuthStateChanged_standard_same.
        -- rewrite onAuthStateChanged_standard_other by done.
           apply run_update_structural; [done |].
           intros q Hq Hstr. simplify_eq. by apply structural_pending.
    + unfold run; simpl. apply map_Forall_insert_2; [| done].
      apply structural_newProfile.
  - unfold approvePendingSession.
    destruct (db !! actor) as [p|]; [| done].
    destruct (pendingSessionId p) as [b|]; [| done].
    destruct (truthy_string b); [| done].
    apply run_update_structural; [done |].
    intros q _ Hstr. by apply structural_approval.
  - unfold denyPendingSession.
    destruct (db !! actor) as [p|]; [| done].
    apply run_update_structural; [done |].
    intros q _ Hstr. by apply structural_denial.
  - destruct (db !! actor) as [p|] eqn:Hp; [| done].
    unfold handleRevokeDevice. destruct confirmed; [| done].
    rewrite revoked_sessions.
    apply run_update_structural; [done |].
    intros q Hq Hstr.
    assert (uid p = actor) as Hu by (by apply (Hkey actor p)).
    rewrite Hu, Hp in Hq. simplify_eq. by apply structural_revoke.
  - destruct (db !! target) as [p|]; [| done].
    apply run_update_structural; [done |].
    intros q _ Hstr. by apply structural_isApproved.
  - destruct (db !! target) as [p|]; [| done].
    unfold handleAuthorizeSession.
    destruct (pendingSessionId p) as [b|]; [| done].
    destruct (truthy_string b); [| done].
    apply run_update_structural; [done |].
    intros q _ Hstr. by apply structural_approval.
  - destruct (db !! target) as [p|]; [| done].
    unfold handleDeleteUser.
    destruct (isOwner p); [done |]. destruct confirmed; [| done].
    unfold run; simpl. by apply map_Forall_delete.
Qed.

(** C8, refuted as stated: the owner promotes the standard user ["u2"]
    while that user's request from ["s2"] is pending. The store satisfied
    the invariant before; afterwards ["u2"] is privileged and still has
    [pendingSessionId = "s2"]. *)
Lemma C8_role_toggle_counterexample :
  keyed db_office
  ∧ structural_db db_office
  ∧ step (OpToggleAdmin "o1" "u2") db_office !! "u2"
    = Some (mkUserProfile "u2" "user@example.org" true false true "s1"
              (Some []) (Some "s2")
              (Some (mkSessionMetadata "s2" "Android 14" 1)))
  ∧ ¬ structural_db (step (OpToggleAdmin "o1" "u2") db_office).
Proof.
  assert (step (OpToggleAdmin "o1" "u2") db_office !! "u2"
          = Some (mkUserProfile "u2" "user@example.org" true false true "s1"
                    (Some []) (Some "s2")
                    (Some (mkSessionMetadata "s2" "Android 14" 1)))) as Hafter
    by (by vm_compute).
  split_and!.
  - apply (bool_decide_unpack _). by vm_compute.
  - apply (bool_decide_unpack _). by vm_compute.
  - exact Hafter.
  - intros Hinv. specialize (Hinv "u2" _ Hafter).
    unfold structural in Hinv; simpl in Hinv. by destruct Hinv.
Qed.

(** The revision with [authorizedSessions]: every operation other than
    the admin role toggle (sign-in with profile creation, approve, deny,
    revoke, approval toggle, admin session authorization, delete)
    preserves the structural invariant, so it holds after any sequence of
    them; the admin role toggle preserves it when the target has no
    pending request and no authorized session. *)
Lemma structural_invariant_later_revision
    (ops : list Operation) (db : gmap string UserProfile) :
  keyed db →
  structural_db db →
  (Forall (λ op, is_role_toggle op = false) ops →
     keyed (steps ops db) ∧ structural_db (steps ops db))
  ∧ (∀ actor target targetUser,
       db !! target = Some targetUser →
       pendingSessionId targetUser = None →
       pendingSessionMetadata targetUser = None →
       sessions targetUser = [] →
       structural_db (step (OpToggleAdmin actor target) db)).
Proof.
  intros Hkey Hdb. split.
  - intros Hops. unfold steps. revert db Hkey Hdb.
    induction Hops as [| op ops Hop Hops IH]; intros db Hkey Hdb; [done |].
    simpl. apply IH; [by apply step_keyed | by apply step_structural].
  - intros actor target q Hq H1 H2 H3. unfold step; simpl.
    destruct (db !! actor) as [p|]; [| done]. rewrite Hq.
    unfold handleToggleAdmin.
    destruct (negb (isOwner p)); [done |].
    destruct (isOwner q); [done |].
    apply run_update_structural; [done |].
    intros q' Hq' _.
    assert (uid q = target) as Hu by (by apply (Hkey target q)).
    rewrite Hu, Hq in Hq'. simplify_eq. by apply structural_isAdmin.
Qed.

(** C8, amended. In the revision with [authorizedSessions] ([part_001],
    [part_002]), every operation other than the admin role toggle (profile
    creation, session evaluation, approve, deny, revoke, admin session
    authorization, and also the approval toggle and delete) preserves the
    structural invariant, so it holds after any sequence of them; the
    admin role toggle writes only [isAdmin] and preserves the invariant
    when the target has no pending request and no authorized session. In
    the earlier revision ([src/App.tsx]), whose profiles have no
    [authorizedSessions], profile creation yields a profile inside the
    invariant and session evaluation preserves it when the profile is
    standard or [S = lastSessionId]; on a privileged profile with
    [S ≠ lastSessionId] it sets [pendingSessionId] and
    [pendingSessionMetadata], which breaks it. *)
Theorem C8_structural_invariant_without_role_toggle
    (ops : list Operation) (db : gmap string UserProfile) :
  keyed db →
  structural_db db →
  (Forall (λ op, is_role_toggle op = false) ops →
     keyed (steps ops db) ∧ structural_db (steps ops db))
  ∧ (∀ profile targetUser,
       writes (handleToggleAdmin profile targetUser) = []
       ∨ writes (handleToggleAdmin profile targetUser)
         = [UpdateDoc (uid targetUser) [W_isAdmin (negb (isAdmin targetUser))]])
  ∧ (∀ actor target targetUser,
       db !! target = Some targetUser →
       pendingSessionId targetUser = None →
       pendingSessionMetadata targetUser = None →
       sessions targetUser = [] →
       structural_db (step (OpToggleAdmin actor target) db))
  ∧ (∀ c firebaseUser,
       ∃ L, legacy_after (Legacy.onAuthStateChanged c firebaseUser None) None
            = Some L
          ∧ legacy_structural L)
  ∧ (∀ c firebaseUser L,
       legacy_structural L →
       Legacy.isAdmin L || Legacy.isOwner L = false
       ∨ Legacy.lastSessionId L = currentSid c →
       ∃ L', legacy_after (Legacy.onAuthStateChanged c firebaseUser (Some L))
               (Some L) = Some L'
           ∧ legacy_structural L')
  ∧ (∀ c firebaseUser L,
       Legacy.isAdmin L || Legacy.isOwner L = true →
       Legacy.lastSessionId L ≠ currentSid c →
       ∃ L', legacy_after (Legacy.onAuthStateChanged c firebaseUser (Some L))
               (Some L) = Some L'
           ∧ Legacy.pendingSessionId L' = Some (currentSid c)
           ∧ Legacy.pendingSessionMetadata L'
             = Some (Legacy.mkPendingMetadata (deviceLabel c) (now c))
           ∧ ¬ legacy_structural L').
Proof.
  intros Hkey Hdb.
  destruct (structural_invariant_later_revision ops db Hkey Hdb)
    as [Hsteps Htoggle].
  split; [exact Hsteps |]. split; [| split; [exact Htoggle |]].
  - intros profile targetUser. unfold handleToggleAdmin.
    destruct (negb (isOwner profile)); [by left |].
    destruct (isOwner targetUser); [by left | by right].
  - split_and!.
    + intros c firebaseUser. eexists. split; [reflexivity |].
      unfold legacy_structural; simpl.
      by destruct (bool_decide (fu_email firebaseUser = Some ROOT_OWNER_EMAIL)).
    + intros c firebaseUser L HL Hcase.
      destruct (legacy_sign_in_cases c firebaseUser L) as [Hother Hsame].
      destruct (decide (Legacy.lastSessionId L = currentSid c)) as [Hl | Hl].
      * rewrite Hsame by done. by exists L.
      * rewrite Hother by done. destruct Hcase as [Hstd | Hl']; [| done].
        eexists. split; [reflexivity |].
        unfold legacy_structural.
        replace (Legacy.isAdmin (Legacy.apply_update (legacy_pending_update c) L)
                 || Legacy.isOwner (Legacy.apply_update (legacy_pending_update c) L))
          with (Legacy.isAdmin L || Legacy.isOwner L) by (by destruct L).
        by rewrite Hstd.
    + intros c firebaseUser L Hpriv Hl.
      destruct (legacy_sign_in_cases c firebaseUser L) as [Hother _].
      rewrite Hother by done.
      eexists. split; [reflexivity |].
      split; [by destruct L |]. split; [by destruct L |].
      unfold legacy_structural.
      replace (Legacy.isAdmin (Legacy.apply_update (legacy_pending_update c) L)
               || Legacy.isOwner (Legacy.apply_update (legacy_pending_update c) L))
        with (Legacy.isAdmin L || Legacy.isOwner L) by (by destruct L).
      rewrite Hpriv. intros [Hnone _]. by destruct L.
Qed.

Lemma C8_structural_invariant_without_role_toggle_witness :
  keyed db_office
  ∧ structural_db db_office
  ∧ structural_db
      (steps [OpSignIn (mkClient "s3" "iPhone" 4)
                (mkFirebaseUser "u3" (Some "new@example.org"));
              OpAuthorizeSession "u2";
              OpRevoke "o1" "s0" true;
              OpDeny "u2"] db_office).
Proof.
  assert (keyed db_office) as Hkey
    by (apply (bool_decide_unpack _); by vm_compute).
  assert (structural_db db_office) as Hdb
    by (apply (bool_decide_unpack _); by vm_compute).
  split; [exact Hkey |]. split; [exact Hdb |].
  refine (proj2 (proj1 (C8_structural_invariant_without_role_toggle
                          _ db_office Hkey Hdb) _)).
  repeat constructor.
Defined.

(** ** The two revisions of the sign-in handler *)

Lemma lastSessionId_as_legacy (P : UserProfile) :
  Legacy.lastSessionId (as_legacy P) = lastSessionId P.
Proof. by destruct P. Qed.

Section revisions.
Context (c : Client) (firebaseUser : FirebaseUser) (P : UserProfile).

Lemma legacy_requests_same :
  lastSessionId P = currentSid c →
  Legacy.requests
    (Legacy.onAuthStateChanged c firebaseUser (Some (as_legacy P))) = [].
Proof.
  intros Hl. unfold Legacy.onAuthStateChanged.
  rewrite lastSessionId_as_legacy.
  by rewrite bool_decide_eq_false_2 by (intros Hne; by apply Hne).
Qed.

Lemma legacy_requests_other :
  lastSessionId P ≠ currentSid c →
  Legacy.requests
    (Legacy.onAuthStateChanged c firebaseUser (Some (as_legacy P)))
  = [UpdateRequest (fu_uid firebaseUser)
       [("pendingSessionId", Plain (JString (currentSid c)));
        ("pendingSessionMetadata",
         Plain (JObject [("deviceName", JString (deviceLabel c));
                         ("timestamp", JNumber (now c))]))]].
Proof.
  intros Hl. unfold Legacy.onAuthStateChanged.
  rewrite lastSessionId_as_legacy.
  by rewrite bool_decide_eq_true_2.
Qed.
End revisions.

(** At creation the later revision stores one more key,
    [authorizedSessions]; the other keys and their values are the same. *)
Lemma creation_requests (c : Client) (firebaseUser : FirebaseUser) :
  ∃ key lead sessions_value pending,
    Legacy.requests (Legacy.onAuthStateChanged c firebaseUser None)
    = [SetRequest key (lead ++ [pending])]
    ∧ requests (onAuthStateChanged c firebaseUser None)
      = [SetRequest key (lead ++ [("authorizedSessions", sessions_value); pending])].
Proof.
  eexists _, [_; _; _; _; _; _], _, _. split; reflexivity.
Qed.

(** C10, refuted as stated: an admin whose list holds ["s0"] signs in from
    ["s1"]. The revision of [part_002] adds to [authorizedSessions]; the
    revision of [src/App.tsx] writes [pendingSessionId] and
    [pendingSessionMetadata]. *)
Lemma C10_revisions_differ_counterexample :
  let c := mkClient "s1" "Android 14" 2 in
  let firebaseUser := mkFirebaseUser "u1" (Some "admin@flexer.io") in
  let later := requests (onAuthStateChanged c firebaseUser (Some admin_u1)) in
  let earlier :=
    Legacy.requests
      (Legacy.onAuthStateChanged c firebaseUser (Some (as_legacy admin_u1))) in
  isPrivileged admin_u1 = true
  ∧ written_fields <$> later = [["authorizedSessions"]]
  ∧ written_fields <$> earlier = [["pendingSessionId"; "pendingSessionMetadata"]]
  ∧ later ≠ earlier.
Proof. vm_compute. split_and!; done. Qed.

(** C10, amended. On an existing standard profile the two revisions write
    the same fields: nothing when [S = lastSessionId], and otherwise
    [pendingSessionId := S] and [pendingSessionMetadata], whose value in
    the later revision is the earlier one's [{deviceName, timestamp}] with
    [sid] added. On a privileged profile they differ: the later revision
    writes only [authorizedSessions] (when no entry has id [S]), the
    earlier one only the two pending fields (when [S ≠ lastSessionId]), so
    they agree exactly when neither writes. *)
Theorem C10_revisions_agree_on_standard_profiles
    (c : Client) (firebaseUser : FirebaseUser) (P : UserProfile) :
  let S := currentSid c in
  let later := requests (onAuthStateChanged c firebaseUser (Some P)) in
  let earlier :=
    Legacy.requests
      (Legacy.onAuthStateChanged c firebaseUser (Some (as_legacy P))) in
  (isPrivileged P = false →
     written_fields <$> later = written_fields <$> earlier
     ∧ (lastSessionId P = S → later = [] ∧ earlier = [])
     ∧ (lastSessionId P ≠ S →
          ∃ members,
            earlier
            = [UpdateRequest (fu_uid firebaseUser)
                 [("pendingSessionId", Plain (JString S));
                  ("pendingSessionMetadata", Plain (JObject members))]]
            ∧ later
              = [UpdateRequest (fu_uid firebaseUser)
                   [("pendingSessionId", Plain (JString S));
                    ("pendingSessionMetadata",
                     Plain (JObject (("sid", JString S) :: members)))]]))
  ∧ (isPrivileged P = true →
       (∀ r, r ∈ later → written_fields r = ["authorizedSessions"])
       ∧ (∀ r, r ∈ earlier →
            written_fields r = ["pendingSessionId"; "pendingSessionMetadata"])
       ∧ (later = earlier ↔
            someSid (authorizedSessions P) S = true ∧ lastSessionId P = S)).
Proof.
  intros S later earlier. split.
  - intros Hstd.
    destruct (decide (lastSessionId P = S)) as [Hl | Hl].
    + assert (later = []) as Hlater
        by (unfold later; by rewrite onAuthStateChanged_standard_same).
      assert (earlier = []) as Hearlier by (by apply legacy_requests_same).
      rewrite Hlater, Hearlier. split_and!; done.
    + assert (later
              = [UpdateRequest (fu_uid firebaseUser)
                   [("pendingSessionId", Plain (JString S));
                    ("pendingSessionMetadata",
                     Plain (JObject [("sid", JString S);
                                     ("deviceName", JString (deviceLabel c));
                                     ("timestamp", JNumber (now c))]))]])
        as Hlater
        by (unfold later; by rewrite onAuthStateChanged_standard_other).
      assert (earlier = _) as Hearlier by (by apply legacy_requests_other).
      rewrite Hlater, Hearlier. split_and!; [done | done |].
      intros _. by eexists.
  - intros Hpriv.
    destruct (someSid (authorizedSessions P) S) eqn:Hs;
      [assert (later = []) as Hlater
         by (unfold later; by rewrite onAuthStateChanged_privileged_known)
      |assert (later
               = [UpdateRequest (fu_uid firebaseUser)
                    [("authorizedSessions",
                      ArrayUnionOf [json_of_session (newSessionOf c)])]])
         as Hlater
         by (unfold later; by rewrite onAuthStateChanged_privileged_new)];
      (destruct (decide (lastSessionId P = S)) as [Hl | Hl];
       [assert (earlier = []) as Hearlier by (by apply legacy_requests_same)
       |assert (earlier = _) as Hearlier by (by apply legacy_requests_other)]);
      rewrite Hlater, Hearlier; split_and!;
      try (intros r Hr; by apply elem_of_nil in Hr);
      try (intros r Hr; by apply list_elem_of_singleton in Hr as ->);
      split; try done; by intros [? ?].
Qed.

Lemma C10_revisions_agree_on_standard_profiles_witness :
  isPrivileged user_u2 = false
  ∧ written_fields
      <$> requests (onAuthStateChanged (mkClient "s2" "Android 14" 2)
                      (mkFirebaseUser "u2" (Some "user@example.org"))
                      (Some user_u2))
    = written_fields
        <$> Legacy.requests
              (Legacy.onAuthStateChanged (mkClient "s2" "Android 14" 2)
                 (mkFirebaseUser "u2" (Some "user@example.org"))
                 (Some (as_legacy user_u2))).
Proof.
  split; [reflexivity |].
  exact (proj1 (proj1 (C10_revisions_agree_on_standard_profiles
                         (mkClient "s2" "Android 14" 2)
                         (mkFirebaseUser "u2" (Some "user@example.org"))
                         user_u2) eq_refl)).
Defined.

(** * Further properties of the session machine *)

(** ** What a sign-in evaluation leaves behind *)

Lemma isStale_privileged (p : UserProfile) (s : string) :
  isPrivileged p = true →
  isStale p s = negb (someSid (authorizedSessions p) s).
Proof. intros Hp. unfold isStale. by rewrite Hp. Qed.

Lemma isStale_standard (p : UserProfile) (s : string) :
  isPrivileged p = false →
  isStale p s
  = bool_decide (lastSessionId p ≠ s) && bool_decide (pendingSessionId p ≠ Some s).
Proof. intros Hp. unfold isStale. by rewrite Hp. Qed.

Lemma sessionState_stale (p : UserProfile) (s : string) (v : bool) :
  sessionState p s v = STALE ↔ isStale p s = true.
Proof.
  unfold sessionState, render. destruct (isStale p s); [done |].
  split; [| done].
  by repeat (match goal with |- context [if ?b then _ else _] => destruct b end).
Qed.

Lemma signIn_standard_other (c : Client) (firebaseUser : FirebaseUser)
    (db : gmap string UserProfile) (P : UserProfile) :
  db !! fu_uid firebaseUser = Some P →
  isPrivileged P = false →
  lastSessionId P ≠ currentSid c →
  signIn c firebaseUser db = <[fu_uid firebaseUser := with_pending c P]> db.
Proof.
  intros Hdb Hstd Hl. unfold signIn. rewrite Hdb.
  rewrite onAuthStateChanged_standard_other by done.
  by apply run_update_present.
Qed.

Lemma signIn_privileged_new (c : Client) (firebaseUser : FirebaseUser)
    (db : gmap string UserProfile) (P : UserProfile) :
  db !! fu_uid firebaseUser = Some P →
  isPrivileged P = true →
  someSid (authorizedSessions P) (currentSid c) = false →
  signIn c firebaseUser db
  = <[fu_uid firebaseUser :=
        apply_update [W_authorizedSessions_arrayUnion (newSessionOf c)] P]> db.
Proof.
  intros Hdb Hpriv Hs. unfold signIn. rewrite Hdb.
  rewrite onAuthStateChanged_privileged_new by done.
  by apply run_update_present.
Qed.

Lemma signIn_unchanged (c : Client) (firebaseUser : FirebaseUser)
    (db : gmap string UserProfile) (P : UserProfile) :
  db !! fu_uid firebaseUser = Some P →
  (isPrivileged P = true ∧ someSid (authorizedSessions P) (currentSid c) = true)
  ∨ (isPrivileged P = false ∧ lastSessionId P = currentSid c) →
  signIn c firebaseUser db = db.
Proof.
  intros Hdb [[Hp Hs] | [Hp Hl]]; unfold signIn; rewrite Hdb.
  - by rewrite onAuthStateChanged_privileged_known.
  - by rewrite onAuthStateChanged_standard_same.
Qed.

Lemma signIn_new_profile (c : Client) (firebaseUser : FirebaseUser)
    (db : gmap string UserProfile) :
  db !! fu_uid firebaseUser = None →
  let owner := bool_decide (fu_email firebaseUser = Some ROOT_OWNER_EMAIL) in
  signIn c firebaseUser db
  = <[fu_uid firebaseUser :=
        mkUserProfile (fu_uid firebaseUser) (default "" (fu_email firebaseUser))
          owner owner owner (currentSid c)
          (Some (if owner then [newSessionOf c] else [])) None None]> db.
Proof. intros Hdb owner. unfold signIn. by rewrite Hdb. Qed.

(** X1. Whatever the store holds, after a sign-in evaluation the
    identity has a profile on which the signing-in session is not STALE:
    the Session Overwritten screen only comes from a later change made
    elsewhere. *)
Theorem signIn_never_leaves_stale
    (c : Client) (firebaseUser : FirebaseUser) (db : gmap string UserProfile) :
  ∃ P, signIn c firebaseUser db !! fu_uid firebaseUser = Some P
     ∧ isStale P (currentSid c) = false
     ∧ ∀ isAdminView, sessionState P (currentSid c) isAdminView ≠ STALE.
Proof.
  assert (∀ P, isStale P (currentSid c) = false →
               ∀ v, sessionState P (currentSid c) v ≠ STALE) as Hstate.
  { intros P HP v Hs. apply sessionState_stale in Hs. congruence. }
  destruct (db !! fu_uid firebaseUser) as [P|] eqn:Hdb.
  - destruct (isPrivileged P) eqn:Hpriv.
    + destruct (someSid (authorizedSessions P) (currentSid c)) eqn:Hs.
      * exists P. rewrite (signIn_unchanged c firebaseUser db P) by auto.
        assert (isStale P (currentSid c) = false) as HP
          by (rewrite isStale_privileged by done; by rewrite Hs).
        auto.
      * eexists. rewrite (signIn_privileged_new c firebaseUser db P) by done.
        rewrite lookup_insert_eq.
        assert (isStale
                  (apply_update
                     [W_authorizedSessions_arrayUnion (newSessionOf c)] P)
                  (currentSid c) = false) as HP.
        { rewrite isStale_privileged by done. simpl.
          rewrite arrayUnion_fresh by done.
          pose proof (someSid_app_last (default [] (authorizedSessions P))
                        (newSessionOf c)) as Hlast.
          simpl in Hlast. by rewrite Hlast. }
        auto.
    + destruct (decide (lastSessionId P = currentSid c)) as [Hl | Hl].
      * exists P. rewrite (signIn_unchanged c firebaseUser db P) by auto.
        assert (isStale P (currentSid c) = false) as HP.
        { rewrite isStale_standard by done.
          by rewrite (bool_decide_eq_false_2 (_ ≠ _)) by (intros H; by apply H). }
        auto.
      * exists (with_pending c P).
        rewrite (signIn_standard_other c firebaseUser db P) by done.
        rewrite lookup_insert_eq.
        assert (isStale (with_pending c P) (currentSid c) = false) as HP.
        { rewrite isStale_standard by done. simpl.
          rewrite (bool_decide_eq_false_2 (Some _ ≠ Some _))
            by (intros H; by apply H).
          apply andb_false_r. }
        auto.
  - eexists. rewrite signIn_new_profile by done. rewrite lookup_insert_eq.
    split; [done |].
    assert (isStale
              (mkUserProfile (fu_uid firebaseUser)
                 (default "" (fu_email firebaseUser))
                 (bool_decide (fu_email firebaseUser = Some ROOT_OWNER_EMAIL))
                 (bool_decide (fu_email firebaseUser = Some ROOT_OWNER_EMAIL))
                 (bool_decide (fu_email firebaseUser = Some ROOT_OWNER_EMAIL))
                 (currentSid c)
                 (Some (if bool_decide (fu_email firebaseUser = Some ROOT_OWNER_EMAIL)
                        then [newSessionOf c] else [])) None None)
              (currentSid c) = false) as HP.
    { unfold isStale, isPrivileged; simpl.
      destruct (bool_decide (fu_email firebaseUser = Some ROOT_OWNER_EMAIL));
        simpl.
      - by rewrite bool_decide_eq_true_2.
      - by rewrite (bool_decide_eq_false_2 (_ ≠ _)) by (intros H; by apply H). }
    auto.
Qed.

(** X2. A sign-in evaluation repeated by the same client (same session
    id, device label and clock reading) changes nothing the second time:
    the first one already left the store where the second one puts it. *)
Theorem signIn_idempotent
    (c : Client) (firebaseUser : FirebaseUser) (db : gmap string UserProfile) :
  signIn c firebaseUser (signIn c firebaseUser db) = signIn c firebaseUser db.
Proof.
  destruct (db !! fu_uid firebaseUser) as [P|] eqn:Hdb.
  - destruct (isPrivileged P) eqn:Hpriv.
    + destruct (someSid (authorizedSessions P) (currentSid c)) eqn:Hs.
      * by rewrite !(signIn_unchanged c firebaseUser db P) by auto.
      * rewrite (signIn_privileged_new c firebaseUser db P) by done.
        eapply signIn_unchanged; [apply lookup_insert_eq |].
        left. split; [done |]. simpl.
        rewrite arrayUnion_fresh by done.
        apply (someSid_app_last _ (newSessionOf c)).
    + destruct (decide (lastSessionId P = currentSid c)) as [Hl | Hl].
      * by rewrite !(signIn_unchanged c firebaseUser db P) by auto.
      * rewrite (signIn_standard_other c firebaseUser db P) by done.
        rewrite (signIn_standard_other c firebaseUser _ (with_pending c P));
          [| apply lookup_insert_eq | done | done].
        by rewrite insert_insert_eq.
  - rewrite (signIn_new_profile c firebaseUser db Hdb).
    eapply signIn_unchanged; [apply lookup_insert_eq |].
    unfold isPrivileged; simpl.
    destruct (bool_decide (fu_email firebaseUser = Some ROOT_OWNER_EMAIL)).
    + left. split; [done |]. apply (someSid_app_last [] (newSessionOf c)).
    + right. done.
Qed.

(** ** One authorized session for a standard account *)

(** X3. On a standard profile, a device that is shown the application
    (AUTHORIZED, or PENDING_FOREIGN with the approval prompt over it) is
    the one named by [lastSessionId]; so two such devices have the same
    session id. *)
Theorem standard_single_authorized_session
    (p : UserProfile) (S1 S2 : string) (v1 v2 : bool) :
  isPrivileged p = false →
  sessionState p S1 v1 ∈ [AUTHORIZED; PENDING_FOREIGN] →
  sessionState p S2 v2 ∈ [AUTHORIZED; PENDING_FOREIGN] →
  S1 = lastSessionId p ∧ S2 = lastSessionId p.
Proof.
  intros Hstd.
  assert (∀ S v, sessionState p S v ∈ [AUTHORIZED; PENDING_FOREIGN] →
                 S = lastSessionId p) as Hone.
  { intros S v. unfold sessionState, render. rewrite isStale_standard by done.
    rewrite Hstd; simpl.
    destruct (decide (lastSessionId p = S)) as [-> | Hl]; [done |].
    rewrite (bool_decide_eq_true_2 (lastSessionId p ≠ S)) by done. simpl.
    destruct (decide (pendingSessionId p = Some S)) as [Hp | Hp].
    - rewrite (bool_decide_eq_false_2 (pendingSessionId p ≠ Some S))
        by (intros H; by apply H).
      rewrite bool_decide_eq_true_2 by done. simpl.
      intros Hin%list_elem_of_In. simpl in Hin. by intuition.
    - rewrite (bool_decide_eq_true_2 (pendingSessionId p ≠ Some S)) by done.
      simpl. intros Hin%list_elem_of_In. simpl in Hin. by intuition. }
  intros H1 H2. split; by eapply Hone.
Qed.

Lemma standard_single_authorized_session_witness :
  isPrivileged user_u2 = false
  ∧ sessionState user_u2 "s1" false ∈ [AUTHORIZED; PENDING_FOREIGN]
  ∧ "s1" = lastSessionId user_u2.
Proof.
  assert (sessionState user_u2 "s1" false ∈ [AUTHORIZED; PENDING_FOREIGN]) as Hin
    by (vm_compute; apply list_elem_of_In; right; by left).
  split; [reflexivity |]. split; [exact Hin |].
  exact (proj1 (standard_single_authorized_session user_u2 "s1" "s1" false false
                  eq_refl Hin Hin)).
Defined.

(** ** Requests from a second device *)

Lemma sessionState_pending_self (p : UserProfile) (s : string) (v : bool) :
  isPrivileged p = false →
  pendingSessionId p = Some s →
  sessionState p s v = PENDING_SELF.
Proof.
  intros Hstd Hp. unfold sessionState, render.
  rewrite isStale_standard by done. rewrite Hstd, Hp. simpl.
  rewrite (bool_decide_eq_false_2 (Some s ≠ Some s)) by (intros H; by apply H).
  rewrite andb_false_r. by rewrite bool_decide_eq_true_2.
Qed.

Lemma sessionState_pending_foreign (p : UserProfile) (b : string) (v : bool) :
  isPrivileged p = false →
  pendingSessionId p = Some b →
  b ≠ lastSessionId p →
  b ≠ "" →
  sessionState p (lastSessionId p) v = PENDING_FOREIGN.
Proof.
  intros Hstd Hp Hne Hb. unfold sessionState, render.
  rewrite isStale_standard by done. rewrite Hstd, Hp. simpl.
  rewrite (bool_decide_eq_false_2 (lastSessionId p ≠ lastSessionId p))
    by (intros H; by apply H).
  simpl. rewrite (bool_decide_eq_false_2 (Some b = Some _)) by congruence.
  rewrite truthy_string_true by done.
  by rewrite bool_decide_eq_true_2.
Qed.

Lemma sessionState_standard_stale (p : UserProfile) (s : string) (v : bool) :
  isPrivileged p = false →
  lastSessionId p ≠ s →
  pendingSessionId p ≠ Some s →
  sessionState p s v = STALE.
Proof.
  intros Hstd Hl Hp. apply sessionState_stale.
  rewrite isStale_standard by done. by rewrite !bool_decide_eq_true_2.
Qed.

(** X4. When a standard account signs in from a device [S] other than the
    authorized one, the profile records [S] as the one pending request:
    [S] is PENDING_SELF, the authorized device is PENDING_FOREIGN, and
    every other device, a previously pending one included, is STALE. *)
Theorem newer_request_supersedes
    (c : Client) (firebaseUser : FirebaseUser)
    (db : gmap string UserProfile) (P : UserProfile) :
  db !! fu_uid firebaseUser = Some P →
  isPrivileged P = false →
  lastSessionId P ≠ currentSid c →
  currentSid c ≠ "" →
  ∃ P', signIn c firebaseUser db !! fu_uid firebaseUser = Some P'
      ∧ lastSessionId P' = lastSessionId P
      ∧ pendingSessionId P' = Some (currentSid c)
      ∧ pendingSessionMetadata P'
        = Some (mkSessionMetadata (currentSid c) (deviceLabel c) (now c))
      ∧ (∀ v, sessionState P' (currentSid c) v = PENDING_SELF)
      ∧ (∀ v, sessionState P' (lastSessionId P) v = PENDING_FOREIGN)
      ∧ (∀ B v, B ≠ lastSessionId P → B ≠ currentSid c →
           sessionState P' B v = STALE).
Proof.
  intros Hdb Hstd Hl Hne. exists (with_pending c P).
  rewrite (signIn_standard_other c firebaseUser db P) by done.
  rewrite lookup_insert_eq. split_and!; try done.
  - intros v. by apply sessionState_pending_self.
  - intros v. by apply (sessionState_pending_foreign (with_pending c P) (currentSid c)).
  - intros B v HB1 HB2. apply sessionState_standard_stale; [done | done |].
    simpl. congruence.
Qed.

Lemma newer_request_supersedes_witness :
  db_user !! "u2" = Some user_u2
  ∧ isPrivileged user_u2 = false
  ∧ lastSessionId user_u2 ≠ "s3"
  ∧ "s3" ≠ ""
  ∧ ∃ P', signIn (mkClient "s3" "iPhone" 5)
            (mkFirebaseUser "u2" (Some "user@example.org")) db_user !! "u2"
          = Some P'
        ∧ pendingSessionId P' = Some "s3"
        ∧ sessionState P' "s2" false = STALE.
Proof.
  assert (lastSessionId user_u2 ≠ "s3") as Hl by (by vm_compute).
  assert ("s3" ≠ "") as Hne by (by vm_compute).
  assert ("s2" ≠ lastSessionId user_u2) as H1 by (by vm_compute).
  assert ("s2" ≠ "s3") as H2 by (by vm_compute).
  split; [reflexivity |]. split; [reflexivity |].
  split; [exact Hl |]. split; [exact Hne |].
  destruct (newer_request_supersedes (mkClient "s3" "iPhone" 5)
              (mkFirebaseUser "u2" (Some "user@example.org")) db_user user_u2
              eq_refl eq_refl Hl Hne)
    as (P' & Hlook & _ & Hp & _ & _ & _ & Hstale).
  exists P'. split; [exact Hlook |]. split; [exact Hp |].
  exact (Hstale "s2" false H1 H2).
Defined.

(** X5. A denied device is STALE, but denial is not remembered: when it
    signs in again with the same session id, the handler registers its
    request anew and it is PENDING_SELF again. *)
Theorem denied_device_can_ask_again
    (c : Client) (firebaseUser : FirebaseUser) (P : UserProfile) :
  isPrivileged P = false →
  pendingSessionId P = Some (currentSid c) →
  lastSessionId P ≠ currentSid c →
  let denied := apply_update denial_update P in
  (∀ v, sessionState denied (currentSid c) v = STALE)
  ∧ onAuthStateChanged c firebaseUser (Some denied)
    = [Db (UpdateDoc (fu_uid firebaseUser)
             [W_pendingSessionId (Some (currentSid c));
              W_pendingSessionMetadata (Some (newSessionOf c))])]
  ∧ pendingSessionId (with_pending c denied) = Some (currentSid c)
  ∧ (∀ v, sessionState (with_pending c denied) (currentSid c) v = PENDING_SELF).
Proof.
  intros Hstd Hp Hl denied. split_and!.
  - intros v. by apply sessionState_standard_stale.
  - by apply onAuthStateChanged_standard_other.
  - done.
  - intros v. by apply sessionState_pending_self.
Qed.

Lemma denied_device_can_ask_again_witness :
  isPrivileged user_u2 = false
  ∧ pendingSessionId user_u2 = Some "s2"
  ∧ lastSessionId user_u2 ≠ "s2"
  ∧ sessionState (apply_update denial_update user_u2) "s2" false = STALE
  ∧ sessionState
      (with_pending (mkClient "s2" "Android 14" 3)
         (apply_update denial_update user_u2)) "s2" false
    = PENDING_SELF.
Proof.
  assert (lastSessionId user_u2 ≠ "s2") as Hl by (by vm_compute).
  split; [reflexivity |]. split; [reflexivity |]. split; [exact Hl |].
  destruct (denied_device_can_ask_again (mkClient "s2" "Android 14" 3)
              (mkFirebaseUser "u2" (Some "user@example.org")) user_u2
              eq_refl eq_refl Hl)
    as (Hstale & _ & _ & Hself).
  split; [exact (Hstale false) | exact (Hself false)].
Defined.

(** ** The device switch, end to end *)

(** X6. A new user (not the owner) signs up on device [S1], signs in on a
    second device [S2] and approves the request from [S1]. After the
    second sign-in [S1] is asked to decide and [S2] waits; after the
    approval the profile names [S2], nothing is pending, [S1] is STALE and
    [S2] AUTHORIZED. No other document of the collection changes. *)
Theorem device_switch_scenario
    (c1 c2 : Client) (firebaseUser : FirebaseUser)
    (db : gmap string UserProfile) :
  db !! fu_uid firebaseUser = None →
  fu_email firebaseUser ≠ Some ROOT_OWNER_EMAIL →
  currentSid c2 ≠ currentSid c1 →
  currentSid c2 ≠ "" →
  let k := fu_uid firebaseUser in
  let db2 := steps [OpSignIn c1 firebaseUser; OpSignIn c2 firebaseUser] db in
  let db3 := step (OpApprove k) db2 in
  (∃ P2, db2 !! k = Some P2
       ∧ lastSessionId P2 = currentSid c1
       ∧ pendingSessionId P2 = Some (currentSid c2)
       ∧ (∀ v, sessionState P2 (currentSid c1) v = PENDING_FOREIGN)
       ∧ (∀ v, sessionState P2 (currentSid c2) v = PENDING_SELF))
  ∧ (∃ P3, db3 !! k = Some P3
         ∧ lastSessionId P3 = currentSid c2
         ∧ pendingSessionId P3 = None
         ∧ pendingSessionMetadata P3 = None
         ∧ isApproved P3 = false
         ∧ (∀ v, sessionState P3 (currentSid c1) v = STALE)
         ∧ (∀ v, sessionState P3 (currentSid c2) v = AUTHORIZED))
  ∧ (∀ k', k' ≠ k → db3 !! k' = db !! k').
Proof.
  intros Hdb Hemail Hne Hnonempty k db2 db3.
  set (P1 := mkUserProfile k (default "" (fu_email firebaseUser))
               false false false (currentSid c1) (Some []) None None).
  assert (signIn c1 firebaseUser db = <[k := P1]> db) as H1.
  { rewrite signIn_new_profile by done.
    by rewrite bool_decide_eq_false_2. }
  set (P2 := with_pending c2 P1).
  assert (db2 = <[k := P2]> db) as H2.
  { unfold db2, steps; simpl. unfold step at 2; simpl. fold (signIn c1 firebaseUser db).
    rewrite H1. unfold step; simpl.
    fold (signIn c2 firebaseUser (<[k := P1]> db)).
    rewrite (signIn_standard_other c2 firebaseUser _ P1);
      [| apply lookup_insert_eq | done | by apply not_eq_sym].
    by rewrite insert_insert_eq. }
  set (P3 := apply_update (approval_update (currentSid c2)) P2).
  assert (db3 = <[k := P3]> db) as H3.
  { unfold db3, step; simpl. rewrite H2, lookup_insert_eq.
    unfold approvePendingSession; simpl.
    rewrite truthy_string_true by done.
    rewrite (run_update_present _ _ _ P2) by apply lookup_insert_eq.
    by rewrite insert_insert_eq. }
  split_and!.
  - exists P2. rewrite H2, lookup_insert_eq. split_and!; try done.
    + intros v.
      by apply (sessionState_pending_foreign P2 (currentSid c2)).
    + intros v. by apply sessionState_pending_self.
  - exists P3. rewrite H3, lookup_insert_eq. split_and!; try done.
    + intros v. apply sessionState_standard_stale; [done | | done].
      simpl. done.
    + intros v. by apply (sessionState_standard_last P3).
  - intros k' Hk'. rewrite H3. by apply lookup_insert_ne.
Qed.

Lemma device_switch_scenario_witness :
  (∅ : gmap string UserProfile) !! "u9" = None
  ∧ Some "user@example.org" ≠ Some ROOT_OWNER_EMAIL
  ∧ "s2" ≠ "s1"
  ∧ "s2" ≠ ""
  ∧ ∃ P3, step (OpApprove "u9")
            (steps [OpSignIn (mkClient "s1" "X11" 1)
                      (mkFirebaseUser "u9" (Some "user@example.org"));
                    OpSignIn (mkClient "s2" "Android 14" 2)
                      (mkFirebaseUser "u9" (Some "user@example.org"))] ∅)
            !! "u9" = Some P3
        ∧ lastSessionId P3 = "s2"
        ∧ sessionState P3 "s1" false = STALE.
Proof.
  assert ((∅ : gmap string UserProfile) !! "u9" = None) as Hnew by reflexivity.
  assert (Some "user@example.org" ≠ Some ROOT_OWNER_EMAIL) as Hemail
    by (by vm_compute).
  assert ("s2" ≠ "s1") as Hne by (by vm_compute).
  assert ("s2" ≠ "") as Hnonempty by (by vm_compute).
  split; [exact Hnew |]. split; [exact Hemail |].
  split; [exact Hne |]. split; [exact Hnonempty |].
  destruct (device_switch_scenario (mkClient "s1" "X11" 1)
              (mkClient "s2" "Android 14" 2)
              (mkFirebaseUser "u9" (Some "user@example.org")) ∅
              Hnew Hemail Hne Hnonempty)
    as (_ & (P3 & Hlook & Hlast & _ & _ & _ & Hstale & _) & _).
  exists P3. split; [exact Hlook |]. split; [exact Hlast | exact (Hstale false)].
Defined.

(** ** What an operation can change *)

Lemma identity_apply_update (data : list FieldWrite) (p : UserProfile) :
  uid (apply_update data p) = uid p
  ∧ email (apply_update data p) = email p
  ∧ isOwner (apply_update data p) = isOwner p.
Proof.
  unfold apply_update. revert p.
  induction data as [| w data IH]; intros p; [done |].
  simpl. destruct (IH (apply_field p w)) as (-> & -> & ->). by destruct w.
Qed.

Lemma isAdmin_apply_update (data : list FieldWrite) (p : UserProfile) :
  (∀ v, W_isAdmin v ∉ data) → isAdmin (apply_update data p) = isAdmin p.
Proof.
  unfold apply_update. revert p.
  induction data as [| w data IH]; intros p Hno; [done |].
  simpl. rewrite IH.
  - destruct w; try done. exfalso. apply (Hno v). by left.
  - intros v Hin. apply (Hno v). by right.
Qed.

Lemma isApproved_apply_update (data : list FieldWrite) (p : UserProfile) :
  (∀ v, W_isApproved v ∉ data) → isApproved (apply_update data p) = isApproved p.
Proof.
  unfold apply_update. revert p.
  induction data as [| w data IH]; intros p Hno; [done |].
  simpl. rewrite IH.
  - destruct w; try done. exfalso. apply (Hno v). by left.
  - intros v Hin. apply (Hno v). by right.
Qed.

Lemma not_in_singleton_writes (w w' : FieldWrite) :
  w ∈ [w'] → w = w'.
Proof. by intros ->%list_elem_of_singleton. Qed.

Lemma step_outcome (op : Operation) (db : gmap string UserProfile) :
  keyed db → Outcome op db (step op db).
Proof.
  intros Hkey. unfold step.
  destruct op as [c u | actor | actor | actor revoked confirmed | target
                 | actor target | target | target confirmed]; simpl.
  - destruct (db !! fu_uid u) as [P|] eqn:HP.
    + destruct (isPrivileged P) eqn:Hpriv.
      * destruct (someSid (authorizedSessions P) (currentSid c)) eqn:Hs.
        -- rewrite onAuthStateChanged_privileged_known by done. by apply Unchanged.
        -- rewrite onAuthStateChanged_privileged_new by done.
           rewrite (run_update_present _ _ _ P) by done.
           eapply (Updated _ _ _ P); [done | done | |];
             intros v Hin%not_in_singleton_writes; discriminate.
      * destruct (decide (lastSessionId P = currentSid c)) as [Hl | Hl].
        -- rewrite onAuthStateChanged_standard_same by done. by apply Unchanged.
        -- rewrite onAuthStateChanged_standard_other by done.
           rewrite (run_update_present _ _ _ P) by done.
           eapply (Updated _ _ _ P); [done | done | |];
             intros v Hin; apply list_elem_of_In in Hin; simpl in Hin;
             by intuition.
    + eapply (Created _ _ _ c u); [done | done | | done]. done.
  - destruct (db !! actor) as [p|] eqn:Hp; [| by apply Unchanged].
    unfold approvePendingSession.
    destruct (pendingSessionId p) as [b|]; [| by apply Unchanged].
    destruct (truthy_string b); [| by apply Unchanged].
    assert (uid p = actor) as Hu by (by apply (Hkey actor p)).
    rewrite Hu, (run_update_present _ _ _ p) by done.
    eapply (Updated _ _ _ p); [done | done | |];
      intros v Hin; apply list_elem_of_In in Hin; simpl in Hin; by intuition.
  - destruct (db !! actor) as [p|] eqn:Hp; [| by apply Unchanged].
    unfold denyPendingSession.
    assert (uid p = actor) as Hu by (by apply (Hkey actor p)).
    rewrite Hu, (run_update_present _ _ _ p) by done.
    eapply (Updated _ _ _ p); [done | done | |];
      intros v Hin; apply list_elem_of_In in Hin; simpl in Hin; by intuition.
  - destruct (db !! actor) as [p|] eqn:Hp; [| by apply Unchanged].
    unfold handleRevokeDevice. destruct confirmed; [| by apply Unchanged].
    assert (uid p = actor) as Hu by (by apply (Hkey actor p)).
    rewrite Hu, (run_update_present _ _ _ p) by done.
    eapply (Updated _ _ _ p); [done | done | |];
      intros v Hin%not_in_singleton_writes; discriminate.
  - destruct (db !! target) as [p|] eqn:Hp; [| by apply Unchanged].
    unfold handleToggleApproval.
    assert (uid p = target) as Hu by (by apply (Hkey target p)).
    rewrite Hu, (run_update_present _ _ _ p) by done.
    eapply (Updated _ _ _ p); [done | done | |];
      intros v Hin%not_in_singleton_writes; [discriminate | done].
  - destruct (db !! actor) as [profile|] eqn:Hactor; [| by apply Unchanged].
    destruct (db !! target) as [p|] eqn:Hp; [| by apply Unchanged].
    unfold handleToggleAdmin.
    destruct (isOwner profile) eqn:Hcaller; [| by apply Unchanged].
    destruct (isOwner p) eqn:Howner; [by apply Unchanged |]. cbn [negb].
    assert (uid p = target) as Hu by (by apply (Hkey target p)).
    rewrite Hu, (run_update_present _ _ _ p) by done.
    eapply (Updated _ _ _ p); [done | done | |];
      intros v Hin%not_in_singleton_writes; [| discriminate].
    split; [done |]. by exists actor, profile.
  - destruct (db !! target) as [p|] eqn:Hp; [| by apply Unchanged].
    unfold handleAuthorizeSession.
    destruct (pendingSessionId p) as [b|]; [| by apply Unchanged].
    destruct (truthy_string b); [| by apply Unchanged].
    assert (uid p = target) as Hu by (by apply (Hkey target p)).
    rewrite Hu, (run_update_present _ _ _ p) by done.
    eapply (Updated _ _ _ p); [done | done | |];
      intros v Hin; apply list_elem_of_In in Hin; simpl in Hin; by intuition.
  - destruct (db !! target) as [p|] eqn:Hp; [| by apply Unchanged].
    unfold handleDeleteUser.
    destruct (isOwner p) eqn:Howner; [by apply Unchanged |].
    destruct confirmed; [| by apply Unchanged].
    assert (uid p = target) as Hu by (by apply (Hkey target p)).
    rewrite Hu. by eapply (Deleted _ _ _ p).
Qed.

Lemma isAdmin_changed (data : list FieldWrite) (p : UserProfile) :
  isAdmin (apply_update data p) ≠ isAdmin p → ∃ v, W_isAdmin v ∈ data.
Proof.
  unfold apply_update. revert p.
  induction data as [| w data IH]; intros p Hne; [done |].
  simpl in Hne.
  destruct w as [b | | | | | |];
    [exists b; by left
    | destruct (IH _ Hne) as [v' Hv]; exists v'; by right ..].
Qed.

Lemma isApproved_changed (data : list FieldWrite) (p : UserProfile) :
  isApproved (apply_update data p) ≠ isApproved p → ∃ v, W_isApproved v ∈ data.
Proof.
  unfold apply_update. revert p.
  induction data as [| w data IH]; intros p Hne; [done |].
  simpl in Hne.
  destruct w as [| b | | | | |];
    [destruct (IH _ Hne) as [v' Hv]; exists v'; by right
    | exists b; by left
    | destruct (IH _ Hne) as [v' Hv]; exists v'; by right ..].
Qed.

(** X7. An operation changes at most the document it is about: every
    other document of the collection is found as it was. *)
Theorem step_touches_only_subject
    (op : Operation) (db : gmap string UserProfile) (k : string) :
  keyed db →
  k ≠ subject op →
  step op db !! k = db !! k.
Proof.
  intros Hkey Hk.
  destruct (step_outcome op db Hkey)
    as [-> | c u P -> _ _ -> | p data _ -> _ _ | p _ _ _ ->]; simpl in *.
  - done.
  - by apply lookup_insert_ne.
  - by apply lookup_insert_ne.
  - by apply lookup_delete_ne.
Qed.

Lemma step_touches_only_subject_witness :
  keyed db_office
  ∧ "o1" ≠ subject (OpDeny "u2")
  ∧ step (OpDeny "u2") db_office !! "o1" = Some owner_o1.
Proof.
  assert (keyed db_office) as Hkey
    by (apply (bool_decide_unpack _); by vm_compute).
  assert ("o1" ≠ subject (OpDeny "u2")) as Hne by (by vm_compute).
  split; [exact Hkey |]. split; [exact Hne |].
  transitivity (db_office !! "o1"); [| reflexivity].
  exact (step_touches_only_subject (OpDeny "u2") db_office "o1" Hkey Hne).
Defined.

(** X8. An existing document keeps its [uid], [email] and [isOwner]
    through every operation; the only way it leaves the collection is a
    confirmed delete, and that never happens to an owner. *)
Theorem identity_fields_never_change
    (op : Operation) (db : gmap string UserProfile) (k : string)
    (p : UserProfile) :
  keyed db →
  db !! k = Some p →
  (∃ p', step op db !! k = Some p'
       ∧ uid p' = uid p ∧ email p' = email p ∧ isOwner p' = isOwner p)
  ∨ (step op db !! k = None ∧ op = OpDeleteUser k true ∧ isOwner p = false).
Proof.
  intros Hkey Hp.
  destruct (decide (k = subject op)) as [-> | Hk].
  - destruct (step_outcome op db Hkey)
      as [-> | c u P -> Hnone _ -> | p0 data Hp0 -> _ _ | p0 Hop Hp0 Howner ->].
    + left. by exists p.
    + simpl in Hp. congruence.
    + left. exists (apply_update data p0). rewrite lookup_insert_eq.
      assert (p0 = p) as -> by congruence.
      split; [done |]. apply identity_apply_update.
    + right. assert (p0 = p) as -> by congruence.
      by rewrite lookup_delete_eq.
  - left. exists p. by rewrite step_touches_only_subject.
Qed.

Lemma identity_fields_never_change_witness :
  keyed db_office
  ∧ db_office !! "o1" = Some owner_o1
  ∧ step (OpDeleteUser "o1" true) db_office !! "o1" ≠ None.
Proof.
  assert (keyed db_office) as Hkey
    by (apply (bool_decide_unpack _); by vm_compute).
  assert (db_office !! "o1" = Some owner_o1) as Hp by reflexivity.
  split; [exact Hkey |]. split; [exact Hp |].
  destruct (identity_fields_never_change (OpDeleteUser "o1" true) db_office
              "o1" owner_o1 Hkey Hp) as [(p' & -> & _) | (_ & _ & Hno)].
  - discriminate.
  - discriminate Hno.
Defined.

(** X9. [isAdmin] of an existing document changes only when a caller
    that is the owner toggles the role of a non-owner; [isApproved]
    changes only by the approval toggle. Sign-in, approve, deny, revoke and
    the admin override never touch either. *)
Theorem roles_change_only_by_toggles
    (op : Operation) (db : gmap string UserProfile) (k : string)
    (p p' : UserProfile) :
  keyed db →
  db !! k = Some p →
  step op db !! k = Some p' →
  (isAdmin p' ≠ isAdmin p →
     isOwner p = false
     ∧ ∃ actor profile, op = OpToggleAdmin actor k
                        ∧ db !! actor = Some profile
                        ∧ isOwner profile = true)
  ∧ (isApproved p' ≠ isApproved p → op = OpToggleApproval k).
Proof.
  intros Hkey Hp Hp'.
  destruct (decide (k = subject op)) as [-> | Hk].
  - destruct (step_outcome op db Hkey)
      as [Heq | c u P -> Hnone _ Heq | p0 data Hp0 Heq Hadmin Happr
         | p0 Hop Hp0 Howner Heq]; rewrite Heq in Hp'.
    + assert (p' = p) as -> by congruence. done.
    + simpl in Hp. congruence.
    + rewrite lookup_insert_eq in Hp'.
      assert (p0 = p) as -> by congruence.
      assert (p' = apply_update data p) as -> by congruence.
      split.
      * intros [v Hv]%isAdmin_changed. by apply (Hadmin v).
      * intros [v Hv]%isApproved_changed. by apply (Happr v).
    + by rewrite lookup_delete_eq in Hp'.
  - rewrite step_touches_only_subject in Hp' by done.
    assert (p' = p) as -> by congruence. done.
Qed.

Lemma roles_change_only_by_toggles_witness :
  keyed db_office
  ∧ db_office !! "u2" = Some user_u2
  ∧ ∃ p', step (OpAuthorizeSession "u2") db_office !! "u2" = Some p'
        ∧ ¬ (isAdmin p' ≠ isAdmin user_u2).
Proof.
  assert (keyed db_office) as Hkey
    by (apply (bool_decide_unpack _); by vm_compute).
  assert (db_office !! "u2" = Some user_u2) as Hp by reflexivity.
  assert (step (OpAuthorizeSession "u2") db_office !! "u2"
          = Some (apply_update (approval_update "s2") user_u2)) as Hp'
    by (by vm_compute).
  split; [exact Hkey |]. split; [exact Hp |].
  eexists. split; [exact Hp' |].
  intros Hne.
  destruct (roles_change_only_by_toggles (OpAuthorizeSession "u2") db_office
              "u2" user_u2 _ Hkey Hp Hp') as [Hadmin _].
  destruct (Hadmin Hne) as (_ & actor & profile & Hop & _).
  discriminate Hop.
Defined.

(** X10. The owner's document survives every sequence of operations, by
    any callers and with any dialog answers, with its [uid], [email],
    [isOwner] and [isAdmin] unchanged. *)
Theorem owner_survives
    (ops : list Operation) (db : gmap string UserProfile) (k : string)
    (p : UserProfile) :
  keyed db →
  db !! k = Some p →
  isOwner p = true →
  ∃ p', steps ops db !! k = Some p'
      ∧ uid p' = uid p ∧ email p' = email p
      ∧ isOwner p' = true ∧ isAdmin p' = isAdmin p.
Proof.
  unfold steps. revert db p.
  induction ops as [| op ops IH]; intros db p Hkey Hp Howner.
  - exists p. by rewrite Howner.
  - simpl.
    destruct (identity_fields_never_change op db k p Hkey Hp)
      as [(p1 & Hp1 & Hu & He & Ho) | (_ & _ & Hno)]; [| congruence].
    assert (isAdmin p1 = isAdmin p) as Ha.
    { destruct (decide (isAdmin p1 = isAdmin p)) as [| Hne]; [done |].
      destruct (roles_change_only_by_toggles op db k p p1 Hkey Hp Hp1)
        as [Hadmin _].
      destruct (Hadmin Hne) as [Hfalse _]. congruence. }
    destruct (IH (step op db) p1) as (p' & Hp' & Hu' & He' & Ho' & Ha');
      [by apply step_keyed | done | congruence |].
    exists p'. split; [done |]. split_and!; congruence.
Qed.

Lemma owner_survives_witness :
  keyed db_office
  ∧ db_office !! "o1" = Some owner_o1
  ∧ isOwner owner_o1 = true
  ∧ ∃ p', steps [OpDeleteUser "o1" true; OpToggleAdmin "o1" "o1";
                 OpToggleAdmin "u2" "o1"] db_office !! "o1" = Some p'
        ∧ isOwner p' = true ∧ isAdmin p' = true.
Proof.
  assert (keyed db_office) as Hkey
    by (apply (bool_decide_unpack _); by vm_compute).
  assert (db_office !! "o1" = Some owner_o1) as Hp by reflexivity.
  split; [exact Hkey |]. split; [exact Hp |]. split; [reflexivity |].
  destruct (owner_survives
              [OpDeleteUser "o1" true; OpToggleAdmin "o1" "o1";
               OpToggleAdmin "u2" "o1"] db_office "o1" owner_o1 Hkey Hp eq_refl)
    as (p' & Hlook & _ & _ & Ho & Ha).
  exists p'. split; [exact Hlook |]. split; [exact Ho | exact Ha].
Defined.

(** ** Toggles undo themselves *)

Lemma step_toggle_approval (db : gmap string UserProfile) (target : string)
    (p : UserProfile) :
  keyed db →
  db !! target = Some p →
  step (OpToggleApproval target) db
  = <[target := apply_update [W_isApproved (negb (isApproved p))] p]> db.
Proof.
  intros Hkey Hp. unfold step, effects_of. rewrite Hp.
  unfold handleToggleApproval.
  assert (uid p = target) as -> by (by apply (Hkey target p)).
  by apply run_update_present.
Qed.

(** X11. Pressing the approval toggle of a user twice leaves the
    collection exactly as it was. *)
Theorem toggle_approval_twice
    (db : gmap string UserProfile) (target : string) :
  keyed db →
  step (OpToggleApproval target) (step (OpToggleApproval target) db) = db.
Proof.
  intros Hkey.
  destruct (db !! target) as [p|] eqn:Hp.
  - rewrite (step_toggle_approval db target p) by done.
    rewrite (step_toggle_approval _ target
               (apply_update [W_isApproved (negb (isApproved p))] p)).
    + rewrite insert_insert_eq. apply insert_id. rewrite Hp. f_equal.
      destruct p; simpl. by rewrite negb_involutive.
    + apply map_Forall_insert_2; [| done]. simpl. by apply (Hkey target p).
    + apply lookup_insert_eq.
  - assert (step (OpToggleApproval target) db = db) as Hsame
      by (unfold step; simpl; by rewrite Hp).
    by rewrite !Hsame.
Qed.

Lemma toggle_approval_twice_witness :
  keyed db_office
  ∧ step (OpToggleApproval "u2") (step (OpToggleApproval "u2") db_office)
    = db_office.
Proof.
  assert (keyed db_office) as Hkey
    by (apply (bool_decide_unpack _); by vm_compute).
  split; [exact Hkey |].
  exact (toggle_approval_twice db_office "u2" Hkey).
Defined.

(** X12. The same for the admin-role toggle, whoever presses it: refused
    both times, or granted and taken back. *)
Theorem toggle_admin_twice
    (db : gmap string UserProfile) (actor target : string) :
  keyed db →
  step (OpToggleAdmin actor target) (step (OpToggleAdmin actor target) db) = db.
Proof.
  intros Hkey.
  assert (∀ d : gmap string UserProfile,
            (∀ profile p, d !! actor = Some profile → d !! target = Some p →
                          isOwner profile = false ∨ isOwner p = true) →
            step (OpToggleAdmin actor target) d = d) as Hrefused.
  { intros d Hd. unfold step; simpl.
    destruct (d !! actor) as [profile|] eqn:Ha; [| done].
    destruct (d !! target) as [p|] eqn:Ht; [| done].
    unfold handleToggleAdmin.
    destruct (Hd profile p eq_refl eq_refl) as [-> | Ho]; [done |].
    rewrite Ho. by destruct (negb (isOwner profile)). }
  destruct (db !! actor) as [profile|] eqn:Ha;
    [| assert (step (OpToggleAdmin actor target) db = db) as ->
         by (apply Hrefused; intros ? ? ? ?; congruence);
       apply Hrefused; intros ? ? ? ?; congruence].
  destruct (db !! target) as [p|] eqn:Ht;
    [| assert (step (OpToggleAdmin actor target) db = db) as ->
         by (apply Hrefused; intros ? ? ? ?; congruence);
       apply Hrefused; intros ? ? ? ?; congruence].
  destruct (isOwner profile) eqn:Hcaller;
    [| assert (step (OpToggleAdmin actor target) db = db) as ->
         by (apply Hrefused; intros ? ? ? ?; left; congruence);
       apply Hrefused; intros ? ? ? ?; left; congruence].
  destruct (isOwner p) eqn:Howner;
    [assert (step (OpToggleAdmin actor target) db = db) as ->
       by (apply Hrefused; intros ? ? ? ?; right; congruence);
     apply Hrefused; intros ? ? ? ?; right; congruence |].
  assert (actor ≠ target) as Hne by (intros ->; congruence).
  assert (uid p = target) as Hu by (by apply (Hkey target p)).
  set (p1 := apply_update [W_isAdmin (negb (isAdmin p))] p).
  assert (step (OpToggleAdmin actor target) db = <[target := p1]> db) as H1.
  { unfold step; simpl. rewrite Ha, Ht. unfold handleToggleAdmin.
    rewrite Hcaller, Howner. cbn [negb]. rewrite Hu.
    by apply run_update_present. }
  rewrite H1. unfold step; simpl.
  rewrite lookup_insert_ne, Ha, lookup_insert_eq by done.
  unfold handleToggleAdmin. rewrite Hcaller. cbn [negb].
  replace (isOwner p1) with false by done.
  replace (uid p1) with target by done.
  rewrite (run_update_present _ _ _ p1) by apply lookup_insert_eq.
  rewrite insert_insert_eq. apply insert_id. rewrite Ht. f_equal.
  destruct p; simpl. by rewrite negb_involutive.
Qed.

Lemma toggle_admin_twice_witness :
  keyed db_office
  ∧ isAdmin <$> (step (OpToggleAdmin "o1" "u2") db_office !! "u2") = Some true
  ∧ step (OpToggleAdmin "o1" "u2") (step (OpToggleAdmin "o1" "u2") db_office)
    = db_office.
Proof.
  assert (keyed db_office) as Hkey
    by (apply (bool_decide_unpack _); by vm_compute).
  split; [exact Hkey |]. split; [by vm_compute |].
  exact (toggle_admin_twice db_office "o1" "u2" Hkey).
Defined.

(** ** Deleting a user is not a ban *)

(** X13. A confirmed delete of a non-owner removes the document; when
    that identity signs in again the handler creates a fresh profile, so a
    deleted admin or approved user (not holding the owner e-mail) comes
    back as an unapproved standard user whose session is AUTHORIZED. *)
Theorem deleted_user_returns_unapproved
    (c : Client) (firebaseUser : FirebaseUser)
    (db : gmap string UserProfile) (p : UserProfile) :
  keyed db →
  db !! fu_uid firebaseUser = Some p →
  isOwner p = false →
  fu_email firebaseUser ≠ Some ROOT_OWNER_EMAIL →
  let k := fu_uid firebaseUser in
  let gone := step (OpDeleteUser k true) db in
  gone !! k = None
  ∧ ∃ P, step (OpSignIn c firebaseUser) gone !! k = Some P
       ∧ isAdmin P = false ∧ isOwner P = false ∧ isApproved P = false
       ∧ lastSessionId P = currentSid c
       ∧ authorizedSessions P = Some []
       ∧ pendingSessionId P = None
       ∧ (∀ v, sessionState P (currentSid c) v = AUTHORIZED).
Proof.
  intros Hkey Hp Howner Hemail k gone.
  assert (gone = delete k db) as Hgone.
  { unfold gone, step, effects_of. fold k in Hp. rewrite Hp.
    unfold handleDeleteUser. rewrite Howner.
    assert (uid p = k) as -> by (by apply (Hkey k p)). done. }
  assert (gone !! k = None) as Hnone by (rewrite Hgone; apply lookup_delete_eq).
  split; [done |].
  eexists. unfold step; simpl. fold (signIn c firebaseUser gone).
  rewrite signIn_new_profile by done. rewrite lookup_insert_eq.
  rewrite bool_decide_eq_false_2 by done.
  split_and!; try done.
  intros v.
  by apply (sessionState_standard_last
              (mkUserProfile _ _ false false false (currentSid c) (Some []) None None)).
Qed.

Lemma deleted_user_returns_unapproved_witness :
  keyed db_admin
  ∧ db_admin !! "u1" = Some admin_u1
  ∧ isOwner admin_u1 = false
  ∧ Some "admin@flexer.io" ≠ Some ROOT_OWNER_EMAIL
  ∧ ∃ P, step (OpSignIn (mkClient "s0" "X11; Linux x86_64" 9)
                 (mkFirebaseUser "u1" (Some "admin@flexer.io")))
           (step (OpDeleteUser "u1" true) db_admin) !! "u1" = Some P
       ∧ isAdmin P = false ∧ isApproved P = false.
Proof.
  assert (keyed db_admin) as Hkey
    by (apply (bool_decide_unpack _); by vm_compute).
  assert (db_admin !! "u1" = Some admin_u1) as Hp by reflexivity.
  assert (Some "admin@flexer.io" ≠ Some ROOT_OWNER_EMAIL) as Hemail
    by (by vm_compute).
  split; [exact Hkey |]. split; [exact Hp |]. split; [reflexivity |].
  split; [exact Hemail |].
  destruct (deleted_user_returns_unapproved
              (mkClient "s0" "X11; Linux x86_64" 9)
              (mkFirebaseUser "u1" (Some "admin@flexer.io")) db_admin admin_u1
              Hkey Hp eq_refl Hemail)
    as (_ & P & Hlook & Ha & _ & Hap & _).
  exists P. split; [exact Hlook |]. split; [exact Ha | exact Hap].
Defined.

(** ** The admin's Signals and Devices tabs *)

(** X14. The Signals tab lists exactly the users for whom Grant Access
    does something: a user is in [securityRequests] iff
    [handleAuthorizeSession] issues a write for it; once that write is
    applied the user is no longer listed. *)
Theorem securityRequests_are_grantable
    (users : list UserProfile) (u : UserProfile) :
  (u ∈ securityRequests users ↔ u ∈ users ∧ handleAuthorizeSession u ≠ [])
  ∧ (u ∈ securityRequests users →
       ∃ b, pendingSessionId u = Some b
          ∧ handleAuthorizeSession u
            = [Db (UpdateDoc (uid u) (approval_update b))]
          ∧ lastSessionId (apply_update (approval_update b) u) = b
          ∧ securityRequests [apply_update (approval_update b) u] = []).
Proof.
  assert (truthy (pendingSessionId u) = true ↔ handleAuthorizeSession u ≠ [])
    as Hguard.
  { unfold handleAuthorizeSession, truthy.
    destruct (pendingSessionId u) as [b|]; [| done].
    by destruct (truthy_string b). }
  split.
  - unfold securityRequests. rewrite list_elem_of_filter, Hguard. tauto.
  - unfold securityRequests at 1. rewrite list_elem_of_filter.
    intros [Ht _]. unfold truthy in Ht.
    destruct (pendingSessionId u) as [b|] eqn:Hb; [| done].
    exists b. unfold handleAuthorizeSession. rewrite Hb, Ht. done.
Qed.

Lemma securityRequests_are_grantable_witness :
  user_u2 ∈ securityRequests [owner_o1; user_u2; admin_u1]
  ∧ securityRequests [owner_o1; user_u2; admin_u1] = [user_u2]
  ∧ handleAuthorizeSession user_u2 ≠ [].
Proof.
  assert (securityRequests [owner_o1; user_u2; admin_u1] = [user_u2]) as Hlist
    by (by vm_compute).
  assert (user_u2 ∈ securityRequests [owner_o1; user_u2; admin_u1]) as Hin
    by (rewrite Hlist; by left).
  split; [exact Hin |]. split; [exact Hlist |].
  exact (proj2 (proj1 (proj1 (securityRequests_are_grantable
                                [owner_o1; user_u2; admin_u1] user_u2)) Hin)).
Defined.

Lemma someSid_filter_other (l : list SessionMetadata) (revoked S : string) :
  revoked ≠ S →
  someSid (Some (filter (λ s, sid s ≠ revoked) l)) S = someSid (Some l) S.
Proof.
  intros Hne. apply eq_true_iff_eq. rewrite !someSid_spec. simpl.
  split; intros (m & Hin & Hm); exists m; (split; [| done]).
  - by apply list_elem_of_filter in Hin as [_ Hin].
  - apply list_elem_of_filter. split; [congruence | done].
Qed.

(** X15. The Devices tab offers Revoke only for entries other than the
    device's own stored session id, and such a revoke never changes the
    stale determination of the device that performs it. *)
Theorem offered_revoke_keeps_current_device
    (profile : UserProfile) (S : string) (s : SessionMetadata) :
  revokeOffered (Some S) s = true →
  ∃ kept,
    handleRevokeDevice profile (sid s) true
    = [Db (UpdateDoc (uid profile) [W_authorizedSessions kept])]
    ∧ someSid (Some kept) S = someSid (authorizedSessions profile) S
    ∧ isStale (apply_update [W_authorizedSessions kept] profile) S
      = isStale profile S.
Proof.
  intros Hoffered. apply bool_decide_eq_true in Hoffered.
  assert (sid s ≠ S) as Hne by congruence.
  exists (filter (λ m, sid m ≠ sid s) (sessions profile)).
  assert (someSid (Some (filter (λ m, sid m ≠ sid s) (sessions profile))) S
          = someSid (authorizedSessions profile) S) as Hsome.
  { rewrite someSid_filter_other by done. unfold sessions.
    by destruct (authorizedSessions profile). }
  split_and!.
  - unfold handleRevokeDevice. by rewrite revoked_sessions.
  - done.
  - destruct (isPrivileged profile) eqn:Hpriv.
    + rewrite !isStale_privileged by done. f_equal. exact Hsome.
    + by rewrite !isStale_standard by done.
Qed.

Lemma offered_revoke_keeps_current_device_witness :
  revokeOffered (Some "s9") (mkSessionMetadata "s0" "X11; Linux x86_64" 1) = true
  ∧ revokeOffered (Some "s0") (mkSessionMetadata "s0" "X11; Linux x86_64" 1) = false
  ∧ ∃ kept,
      handleRevokeDevice admin_u1 "s0" true
      = [Db (UpdateDoc "u1" [W_authorizedSessions kept])]
      ∧ isStale (apply_update [W_authorizedSessions kept] admin_u1) "s9"
        = isStale admin_u1 "s9".
Proof.
  split; [reflexivity |]. split; [reflexivity |].
  destruct (offered_revoke_keeps_current_device admin_u1 "s9"
              (mkSessionMetadata "s0" "X11; Linux x86_64" 1) eq_refl)
    as (kept & Heff & _ & Hstale).
  exists kept. split; [exact Heff | exact Hstale].
Defined.

(** ** The locally stored session id *)

(** X16. The session id of an installation is generated once: after the
    first [getLocalSessionId] every later call returns the same non-empty
    id and leaves the storage alone, whatever [uuidv4] would produce.
    After [handleLogout] the storage is empty and the next call adopts a
    new id, so the device presents itself as a different session. *)
Theorem local_session_id_is_stable
    (stored : option string) (fresh fresh' : string) :
  truthy_string fresh = true →
  let first := getLocalSessionId stored fresh in
  first.2 = Some first.1
  ∧ truthy_string first.1 = true
  ∧ (truthy stored = true → stored = Some first.1)
  ∧ getLocalSessionId first.2 fresh' = first
  ∧ getLocalSessionId (handleLogout first.2) fresh' = (fresh', Some fresh').
Proof.
  intros Hfresh first. unfold first, getLocalSessionId, handleLogout.
  destruct stored as [s|]; simpl.
  - destruct (truthy_string s) eqn:Hs; simpl.
    + by rewrite Hs.
    + by rewrite Hfresh.
  - by rewrite Hfresh.
Qed.

Lemma local_session_id_is_stable_witness :
  truthy_string "0b7c" = true
  ∧ getLocalSessionId (getLocalSessionId (Some "") "0b7c").2 "ffff"
    = ("0b7c", Some "0b7c").
Proof.
  split; [reflexivity |].
  exact (proj1 (proj2 (proj2 (proj2
           (local_session_id_is_stable (Some "") "0b7c" "ffff" eq_refl))))).
Defined.

(** ** Changing the role of a signed-in user *)

(** X17. When the owner promotes a standard user whose
    [authorizedSessions] is empty, every device of that user, the
    authorized one included, is STALE on the updated profile; the user's
    next sign-in evaluation adds the device and it is AUTHORIZED. *)
Theorem promotion_needs_a_new_sign_in
    (profile targetUser : UserProfile) (c : Client) (firebaseUser : FirebaseUser) :
  isOwner profile = true →
  isPrivileged targetUser = false →
  sessions targetUser = [] →
  let promoted := apply_update [W_isAdmin true] targetUser in
  handleToggleAdmin profile targetUser
  = [Db (UpdateDoc (uid targetUser) [W_isAdmin true])]
  ∧ (∀ S v, sessionState promoted S v = STALE)
  ∧ onAuthStateChanged c firebaseUser (Some promoted)
    = [Db (UpdateDoc (fu_uid firebaseUser)
             [W_authorizedSessions_arrayUnion (newSessionOf c)])]
  ∧ (∀ v, sessionState
            (apply_update [W_authorizedSessions_arrayUnion (newSessionOf c)]
               promoted) (currentSid c) v = AUTHORIZED).
Proof.
  intros Hcaller Hstd Hempty promoted.
  assert (isAdmin targetUser = false ∧ isOwner targetUser = false) as [Ha Ho].
  { unfold isPrivileged in Hstd. by apply orb_false_iff in Hstd. }
  assert (∀ S, someSid (authorizedSessions promoted) S = false) as Hnone.
  { intros S. unfold sessions in Hempty. simpl.
    destruct (authorizedSessions targetUser) as [l|]; [| done].
    simpl in Hempty. by subst l. }
  split_and!.
  - unfold handleToggleAdmin. by rewrite Hcaller, Ho, Ha.
  - intros S v. apply sessionState_stale.
    rewrite isStale_privileged by done. by rewrite Hnone.
  - by apply onAuthStateChanged_privileged_new.
  - intros v. apply sessionState_privileged; [done |]. simpl.
    rewrite arrayUnion_fresh by apply Hnone.
    apply (someSid_app_last _ (newSessionOf c)).
Qed.

Lemma promotion_needs_a_new_sign_in_witness :
  isOwner owner_o1 = true
  ∧ isPrivileged user_u2 = false
  ∧ sessions user_u2 = []
  ∧ sessionState (apply_update [W_isAdmin true] user_u2) "s1" true = STALE.
Proof.
  split; [reflexivity |]. split; [reflexivity |]. split; [reflexivity |].
  destruct (promotion_needs_a_new_sign_in owner_o1 user_u2
              (mkClient "s1" "X11" 3)
              (mkFirebaseUser "u2" (Some "user@example.org"))
              eq_refl eq_refl eq_refl) as (_ & Hstale & _).
  exact (Hstale "s1" true).
Defined.

(** X18. When the owner demotes an admin that has no pending request,
    the device named by [lastSessionId] is AUTHORIZED on the updated
    profile and every other device is STALE, whatever
    [authorizedSessions] lists. *)
Theorem demotion_keeps_only_last_session
    (profile targetUser : UserProfile) :
  isOwner profile = true →
  isAdmin targetUser = true →
  isOwner targetUser = false →
  pendingSessionId targetUser = None →
  let demoted := apply_update [W_isAdmin false] targetUser in
  handleToggleAdmin profile targetUser
  = [Db (UpdateDoc (uid targetUser) [W_isAdmin false])]
  ∧ authorizedSessions demoted = authorizedSessions targetUser
  ∧ (∀ v, sessionState demoted (lastSessionId targetUser) v = AUTHORIZED)
  ∧ (∀ S v, S ≠ lastSessionId targetUser → sessionState demoted S v = STALE).
Proof.
  intros Hcaller Ha Ho Hp demoted.
  assert (isPrivileged demoted = false) as Hstd
    by (unfold isPrivileged; simpl; by rewrite Ho).
  split_and!.
  - unfold handleToggleAdmin. by rewrite Hcaller, Ho, Ha.
  - done.
  - intros v. by apply (sessionState_standard_last demoted).
  - intros S v HS. apply sessionState_standard_stale; [done | | ].
    + simpl. congruence.
    + simpl. by rewrite Hp.
Qed.

Lemma demotion_keeps_only_last_session_witness :
  isOwner owner_o1 = true
  ∧ isAdmin admin_u1 = true
  ∧ isOwner admin_u1 = false
  ∧ pendingSessionId admin_u1 = None
  ∧ sessionState (apply_update [W_isAdmin false] admin_u1) "s0" false = AUTHORIZED
  ∧ sessionState (apply_update [W_isAdmin false] admin_u1) "s7" false = STALE.
Proof.
  assert ("s7" ≠ lastSessionId admin_u1) as Hne by (by vm_compute).
  split; [reflexivity |]. split; [reflexivity |].
  split; [reflexivity |]. split; [reflexivity |].
  destruct (demotion_keeps_only_last_session owner_o1 admin_u1
              eq_refl eq_refl eq_refl eq_refl) as (_ & _ & Hlast & Hother).
  split; [exact (Hlast false) | exact (Hother "s7" false Hne)].
Defined.

(** ** The two revisions, screen by screen *)

Lemma as_legacy_fields (p : UserProfile) :
  Legacy.pendingSessionId (as_legacy p) = pendingSessionId p
  ∧ Legacy.lastSessionId (as_legacy p) = lastSessionId p
  ∧ Legacy.isAdmin (as_legacy p) = isAdmin p.
Proof. by destruct p. Qed.

(** X19. On a standard profile the two revisions of [App] show the same
    screen to every device that is not stale; to a stale device the later
    revision shows Session Overwritten where the earlier one shows the
    dashboard. *)
Theorem render_revisions_on_standard_profiles
    (p : UserProfile) (S : string) (isAdminView : bool) :
  isPrivileged p = false →
  (isStale p S = false →
     render p S isAdminView = Legacy.render (as_legacy p) S)
  ∧ (isStale p S = true →
       render p S isAdminView = SessionOverwritten
       ∧ Legacy.render (as_legacy p) S = UserDashboardScreen).
Proof.
  intros Hstd.
  assert (isAdmin p = false) as Ha.
  { unfold isPrivileged in Hstd. by apply orb_false_iff in Hstd as [? _]. }
  destruct (as_legacy_fields p) as (Hp & Hl & Hadm).
  unfold render, Legacy.render. rewrite Hp, Hl, Hadm, Hstd, Ha. simpl.
  split.
  - by intros ->.
  - intros Hstale. rewrite Hstale. split; [done |].
    rewrite isStale_standard in Hstale by done.
    apply andb_true_iff in Hstale as [H1 H2].
    apply bool_decide_eq_true in H1. apply bool_decide_eq_true in H2.
    rewrite (bool_decide_eq_false_2 (pendingSessionId p = Some S)) by done.
    rewrite (bool_decide_eq_false_2 (lastSessionId p = S)) by done.
    by rewrite andb_false_r.
Qed.

Lemma render_revisions_on_standard_profiles_witness :
  isPrivileged user_u2 = false
  ∧ isStale user_u2 "s7" = true
  ∧ render user_u2 "s7" false = SessionOverwritten
  ∧ Legacy.render (as_legacy user_u2) "s7" = UserDashboardScreen.
Proof.
  split; [reflexivity |]. split; [reflexivity |].
  exact (proj2 (render_revisions_on_standard_profiles user_u2 "s7" false eq_refl)
           eq_refl).
Defined.

(** X20. The two revisions of the console issue the same writes: the
    approval toggle, the role toggle and the session override issue the
    same effects, and delete differs only in that the earlier revision
    also shows an alert when the target is the owner. *)
Theorem console_revisions_issue_same_writes
    (profile user : UserProfile) (key : string) (b confirmed : bool) :
  LegacyAdminPanel.handleToggleApproval key b = handleToggleApproval key b
  ∧ LegacyAdminPanel.handleToggleAdmin profile user = handleToggleAdmin profile user
  ∧ LegacyAdminPanel.handleAuthorizeSession user = handleAuthorizeSession user
  ∧ writes (LegacyAdminPanel.handleDeleteUser user confirmed)
    = writes (handleDeleteUser user confirmed)
  ∧ (isOwner user = false →
       LegacyAdminPanel.handleDeleteUser user confirmed
       = handleDeleteUser user confirmed)
  ∧ (∀ db : gmap string UserProfile,
       run (LegacyAdminPanel.handleDeleteUser user confirmed) db
       = run (handleDeleteUser user confirmed) db).
Proof.
  split_and!; try reflexivity.
  - unfold LegacyAdminPanel.handleDeleteUser, handleDeleteUser.
    by destruct (isOwner user).
  - intros Ho. unfold LegacyAdminPanel.handleDeleteUser, handleDeleteUser.
    by rewrite Ho.
  - intros db. unfold LegacyAdminPanel.handleDeleteUser, handleDeleteUser.
    by destruct (isOwner user).
Qed.

Lemma console_revisions_issue_same_writes_witness :
  isOwner user_u2 = false
  ∧ LegacyAdminPanel.handleDeleteUser user_u2 true = [Db (DeleteDoc "u2")]
  ∧ handleDeleteUser user_u2 true = [Db (DeleteDoc "u2")].
Proof.
  split; [reflexivity |].
  destruct (console_revisions_issue_same_writes owner_o1 user_u2 "u2" true true)
    as (_ & _ & _ & _ & Hsame & _).
  split; [| reflexivity].
  transitivity (handleDeleteUser user_u2 true); [exact (Hsame eq_refl) | reflexivity].
Defined.

(** * The device label and the lookup URL *)

(** ** Strings *)

Lemma append_cons (x : ascii) (s t : string) :
  String x s +:+ t = String x (s +:+ t).
Proof. reflexivity. Qed.

Lemma append_nil_l (s : string) : "" +:+ s = s.
Proof. reflexivity. Qed.

Lemma append_nil_r (s : string) : s +:+ "" = s.
Proof.
  induction s as [| x s IH]; [done |]. by rewrite append_cons, IH.
Qed.

Lemma append_assoc (s t u : string) : (s +:+ t) +:+ u = s +:+ (t +:+ u).
Proof.
  induction s as [| x s IH]; [done |]. by rewrite !append_cons, IH.
Qed.

Lemma has_char_append (ch : ascii) (s t : string) :
  has_char ch (s +:+ t) = has_char ch s || has_char ch t.
Proof.
  induction s as [| x s IH]; [done |].
  rewrite append_cons. simpl. rewrite IH. by rewrite orb_assoc.
Qed.

Lemma prefix_first_differs (a x : ascii) (sep rest : string) :
  x ≠ a → String.prefix (String a sep) (String x rest) = false.
Proof. intros Hne. simpl. destruct (ascii_dec a x); [congruence | done]. Qed.

(** Characters that cannot start a separator are collected into the
    current piece. *)
Lemma split_go_collect (a : ascii) (sep x rest piece : string) :
  has_char a x = false →
  split_go (String a sep) (x +:+ rest) 0 piece
  = split_go (String a sep) rest 0 (piece +:+ x).
Proof.
  revert piece. induction x as [| ch x IH]; intros piece Hx.
  - by rewrite append_nil_l, append_nil_r.
  - simpl in Hx. apply orb_false_iff in Hx as [Hch Hx].
    apply bool_decide_eq_false in Hch.
    rewrite append_cons.
    cbn [split_go]. rewrite prefix_first_differs by done.
    rewrite IH by done. by rewrite append_assoc.
Qed.

(** The pieces hold no character that the input does not hold. *)
Lemma split_go_pieces (ch : ascii) (sep s : string) (skip : nat) (piece : string) :
  has_char ch s = false →
  has_char ch piece = false →
  Forall (λ p, has_char ch p = false) (split_go sep s skip piece).
Proof.
  revert skip piece. induction s as [| x s IH]; intros skip piece Hs Hp.
  - by constructor.
  - simpl in Hs. apply orb_false_iff in Hs as [Hx Hs].
    cbn [split_go]. destruct skip as [| k]; [| by apply IH].
    destruct (String.prefix sep (String x s)).
    + constructor; [done |]. by apply IH.
    + apply IH; [done |]. rewrite has_char_append, Hp. simpl.
      by rewrite Hx.
Qed.

Lemma split_go_found_close (piece rest : string) :
  split_go ") " (") " +:+ rest) 0 piece = piece :: split_go ") " rest 0 "".
Proof. by destruct rest. Qed.

Lemma split_go_found_open (piece rest : string) :
  split_go "(" ("(" +:+ rest) 0 piece = piece :: split_go "(" rest 0 "".
Proof. by destruct rest. Qed.

(** ** [getDeviceName] *)

(** X21. For a user agent of the usual shape
    [product (platform) rest], where neither the product nor the platform
    part holds a parenthesis and the platform part is not empty,
    [getDeviceName] is the platform part. *)
Theorem getDeviceName_platform (product platform rest : string) :
  has_char "(" product = false →
  has_char ")" product = false →
  has_char "(" platform = false →
  has_char ")" platform = false →
  platform ≠ "" →
  getDeviceName (product +:+ "(" +:+ platform +:+ ") " +:+ rest) = platform.
Proof.
  intros Hp1 Hp2 Hm1 Hm2 Hne. unfold getDeviceName, split.
  assert (product +:+ "(" +:+ platform +:+ ") " +:+ rest
          = (product +:+ "(" +:+ platform) +:+ ") " +:+ rest) as ->
    by (by rewrite !append_assoc).
  rewrite split_go_collect
    by (rewrite !has_char_append, Hp2, Hm2; done).
  rewrite split_go_found_close. cbn [head default from_option id]. rewrite append_nil_l.
  rewrite split_go_collect by done.
  rewrite split_go_found_open, append_nil_l.
  rewrite <- (append_nil_r platform) at 1.
  rewrite split_go_collect by done. rewrite append_nil_l.
  cbn [split_go]. change ([product; platform] !! 1%nat) with (Some platform).
  cbv iota beta. by rewrite truthy_string_true.
Qed.

Lemma getDeviceName_platform_witness :
  has_char "(" "Mozilla/5.0 " = false
  ∧ has_char ")" "Mozilla/5.0 " = false
  ∧ has_char "(" "Windows NT 10.0; Win64; x64" = false
  ∧ has_char ")" "Windows NT 10.0; Win64; x64" = false
  ∧ "Windows NT 10.0; Win64; x64" ≠ ""
  ∧ getDeviceName
      "Mozilla/5.0 (Windows NT 10.0; Win64; x64) AppleWebKit/537.36 (KHTML, like Gecko)"
    = "Windows NT 10.0; Win64; x64".
Proof.
  assert ("Windows NT 10.0; Win64; x64" ≠ "") as Hne by (by vm_compute).
  split; [reflexivity |]. split; [reflexivity |]. split; [reflexivity |].
  split; [reflexivity |]. split; [exact Hne |].
  exact (getDeviceName_platform "Mozilla/5.0 " "Windows NT 10.0; Win64; x64"
           "AppleWebKit/537.36 (KHTML, like Gecko)"
           eq_refl eq_refl eq_refl eq_refl Hne).
Defined.

(** X22. [getDeviceName] never yields the empty string, and a user agent
    without an opening parenthesis is labelled ["Unknown Device"]. *)
Theorem getDeviceName_fallback (userAgent : string) :
  getDeviceName userAgent ≠ ""
  ∧ (has_char "(" userAgent = false → getDeviceName userAgent = "Unknown Device").
Proof.
  split.
  - unfold getDeviceName.
    destruct (split "(" _ !! 1%nat) as [name|]; [| done].
    destruct (truthy_string name) eqn:Hn; [| done].
    intros ->. done.
  - intros Hno. unfold getDeviceName.
    assert (has_char "(" (default "" (head (split ") " userAgent))) = false)
      as Hhead.
    { pose proof (split_go_pieces "(" ") " userAgent 0 "" Hno eq_refl) as Hall.
      fold (split ") " userAgent) in Hall.
      destruct (split ") " userAgent) as [| p0 ps]; [done |].
      by apply Forall_cons in Hall as [? _]. }
    unfold split at 1.
    rewrite <- (append_nil_r (default "" (head (split ") " userAgent)))).
    by rewrite split_go_collect.
Qed.

Lemma getDeviceName_fallback_witness :
  has_char "(" "curl/8.5.0" = false
  ∧ getDeviceName "curl/8.5.0" = "Unknown Device".
Proof.
  split; [reflexivity |].
  exact (proj2 (getDeviceName_fallback "curl/8.5.0") eq_refl).
Defined.

(** ** [encodeURIComponent] *)

Lemma hex_digits_unreserved (ch : ascii) :
  unreserved (hex_digit (N_of_ascii ch / 16)) = true
  ∧ unreserved (hex_digit (N_of_ascii ch mod 16)) = true.
Proof. by destruct ch as [[] [] [] [] [] [] [] []]. Qed.

Lemma hex_digits_read_back (ch : ascii) :
  ascii_of_N (16 * hex_value (hex_digit (N_of_ascii ch / 16))
              + hex_value (hex_digit (N_of_ascii ch mod 16))) = ch.
Proof. by destruct ch as [[] [] [] [] [] [] [] []]. Qed.

Lemma encode_cons_unreserved (ch : ascii) (s : string) :
  unreserved ch = true →
  encodeURIComponent (String ch s) = String ch (encodeURIComponent s).
Proof. intros Hch. cbn [encodeURIComponent]. by rewrite Hch. Qed.

Lemma encode_cons_escaped (ch : ascii) (s : string) :
  unreserved ch = false →
  encodeURIComponent (String ch s)
  = String "%" (String (hex_digit (N_of_ascii ch / 16))
                  (String (hex_digit (N_of_ascii ch mod 16))
                     (encodeURIComponent s))).
Proof. intros Hch. cbn [encodeURIComponent]. by rewrite Hch. Qed.

(** X23. Every character of [encodeURIComponent s] is an unreserved
    character or [%]; in particular the result holds none of
    [$ & = ? # / { }] nor a space, so it cannot add structure to the URL
    it is put into, and [replace] inserts it literally. *)
Theorem encodeURIComponent_is_safe (s : string) :
  (∀ ch, has_char ch (encodeURIComponent s) = true →
         unreserved ch = true ∨ ch = "%"%char)
  ∧ (∀ ch, ch ∈ ["$"; "&"; "="; "?"; "#"; "/"; "{"; "}"; " "]%char →
           has_char ch (encodeURIComponent s) = false).
Proof.
  assert (∀ ch, has_char ch (encodeURIComponent s) = true →
                unreserved ch = true ∨ ch = "%"%char) as Hsafe.
  { induction s as [| x s IH]; intros ch; [done |].
    destruct (unreserved x) eqn:Hx.
    - rewrite encode_cons_unreserved by done. simpl.
      intros [Hch%bool_decide_eq_true | Hin]%orb_true_iff; [| by apply IH].
      left. congruence.
    - rewrite encode_cons_escaped by done. simpl.
      destruct (hex_digits_unreserved x) as [Hhi Hlo].
      intros [Hch%bool_decide_eq_true
             | [Hch%bool_decide_eq_true
               | [Hch%bool_decide_eq_true | Hin]%orb_true_iff]%orb_true_iff]%orb_true_iff;
        [by right | left; congruence | left; congruence | by apply IH]. }
  split; [done |].
  intros ch Hch.
  destruct (has_char ch (encodeURIComponent s)) eqn:Hin; [| done].
  exfalso. destruct (Hsafe ch Hin) as [Hu | ->].
  - apply list_elem_of_In in Hch. simpl in Hch.
    repeat (destruct Hch as [<- | Hch]; [discriminate Hu |]). done.
  - apply list_elem_of_In in Hch. simpl in Hch.
    repeat (destruct Hch as [Hch | Hch]; [discriminate Hch |]). done.
Qed.

(** X24. [encodeURIComponent] is injective: two lookup values are encoded
    alike only if they are the same. *)
Theorem encodeURIComponent_injective (s1 s2 : string) :
  encodeURIComponent s1 = encodeURIComponent s2 → s1 = s2.
Proof.
  revert s2. induction s1 as [| a s1 IH]; intros [| b s2] Heq.
  - done.
  - destruct (unreserved b) eqn:Hb;
      [rewrite encode_cons_unreserved in Heq by done
      | rewrite encode_cons_escaped in Heq by done]; discriminate.
  - destruct (unreserved a) eqn:Ha;
      [rewrite encode_cons_unreserved in Heq by done
      | rewrite encode_cons_escaped in Heq by done]; discriminate.
  - destruct (unreserved a) eqn:Ha; destruct (unreserved b) eqn:Hb.
    + rewrite !encode_cons_unreserved in Heq by done.
      injection Heq as -> Heq. f_equal. by apply IH.
    + rewrite encode_cons_unreserved, encode_cons_escaped in Heq by done.
      injection Heq as -> _. discriminate Ha.
    + rewrite encode_cons_escaped, encode_cons_unreserved in Heq by done.
      injection Heq as <- _. discriminate Hb.
    + rewrite !encode_cons_escaped in Heq by done.
      injection Heq as Hhi Hlo Heq.
      assert (a = b) as ->.
      { rewrite <- (hex_digits_read_back a), <- (hex_digits_read_back b).
        by rewrite Hhi, Hlo. }
      f_equal. by apply IH.
Qed.

Lemma encodeURIComponent_injective_witness :
  encodeURIComponent "a b" = encodeURIComponent "a b"
  ∧ encodeURIComponent "a b" = "a%20b"
  ∧ "a b" = "a b".
Proof.
  split; [reflexivity |]. split; [reflexivity |].
  exact (encodeURIComponent_injective "a b" "a b" eq_refl).
Defined.

(** ** The lookup URL *)

Lemma replace_collect (r pre s : string) :
  has_char "{" pre = false →
  replace "{query}" r (pre +:+ s) = pre +:+ replace "{query}" r s.
Proof.
  induction pre as [| x pre IH]; intros Hpre; [done |].
  simpl in Hpre. apply orb_false_iff in Hpre as [Hx Hpre].
  apply bool_decide_eq_false in Hx.
  rewrite !append_cons. cbn [replace].
  rewrite prefix_first_differs by done. by rewrite IH.
Qed.

Lemma replace_found (r post : string) :
  replace "{query}" r ("{query}" +:+ post) = r +:+ post.
Proof. by destruct post. Qed.

(** X25. If the tool's URL template is [pre{query}post] and [pre] holds
    no brace, the URL fetched is [pre], the encoded lookup value, then
    [post] as it is (a second [{query}] in [post] is not replaced). With
    [useProxy] set, that URL is encoded once more and appended to the
    proxy's [get?url=]. *)
Theorem lookupUrl_substitutes_first_placeholder
    (pre post lookupValue : string) (proxy : option bool) :
  has_char "{" pre = false →
  let direct := pre +:+ encodeURIComponent lookupValue +:+ post in
  lookupUrl (mkOSINTTool (pre +:+ "{query}" +:+ post) proxy) lookupValue
  = if default false proxy
    then "https://api.allorigins.win/get?url=" +:+ encodeURIComponent direct
    else direct.
Proof.
  intros Hpre direct. unfold lookupUrl. simpl apiUrl. simpl useProxy.
  by rewrite replace_collect, replace_found.
Qed.

Lemma lookupUrl_substitutes_first_placeholder_witness :
  has_char "{" "https://ipinfo.io/" = false
  ∧ lookupUrl (mkOSINTTool "https://ipinfo.io/{query}/json?x={query}" None)
      "8.8.8.8 "
    = "https://ipinfo.io/8.8.8.8%20/json?x={query}".
Proof.
  split; [reflexivity |].
  exact (lookupUrl_substitutes_first_placeholder "https://ipinfo.io/"
           "/json?x={query}" "8.8.8.8 " None eq_refl).
Defined.

(** X26. A tool whose URL template holds no brace is fetched as it is:
    the lookup value does not reach the URL. *)
Theorem lookupUrl_without_placeholder
    (selectedTool : OSINTTool) (lookupValue : string) :
  has_char "{" (apiUrl selectedTool) = false →
  default false (useProxy selectedTool) = false →
  lookupUrl selectedTool lookupValue = apiUrl selectedTool.
Proof.
  intros Hno Hproxy. unfold lookupUrl. rewrite Hproxy.
  rewrite <- (append_nil_r (apiUrl selectedTool)) at 1.
  rewrite replace_collect by done. cbn [replace]. apply append_nil_r.
Qed.

Lemma lookupUrl_without_placeholder_witness :
  has_char "{" "https://api.example.org/status" = false
  ∧ lookupUrl (mkOSINTTool "https://api.example.org/status" (Some false)) "8.8.8.8"
    = "https://api.example.org/status".
Proof.
  split; [reflexivity |].
  exact (lookupUrl_without_placeholder
           (mkOSINTTool "https://api.example.org/status" (Some false)) "8.8.8.8"
           eq_refl eq_refl).
Defined.

Lemma encodeURIComponent_is_safe_witness :
  "&"%char ∈ ["$"; "&"; "="; "?"; "#"; "/"; "{"; "}"; " "]%char
  ∧ encodeURIComponent "a&b" = "a%26b"
  ∧ has_char "&" (encodeURIComponent "a&b") = false.
Proof.
  assert ("&"%char ∈ ["$"; "&"; "="; "?"; "#"; "/"; "{"; "}"; " "]%char) as Hin
    by (right; left).
  split; [exact Hin |]. split; [reflexivity |].
  exact (proj2 (encodeURIComponent_is_safe "a&b") "&"%char Hin).
Defined.

(** ** The approval gate *)

(** X27. A user who signs up with an e-mail other than the owner's gets a
    session that is AUTHORIZED at once but lands on the Authorization
    Required screen, without a subscription to the tools; one press of the
    approval toggle by an admin opens the Command Hub and keeps the
    session AUTHORIZED. The owner's sign-up opens everything at once. *)
Theorem new_user_waits_for_approval
    (c : Client) (firebaseUser : FirebaseUser) (db : gmap string UserProfile) :
  db !! fu_uid firebaseUser = None →
  let k := fu_uid firebaseUser in
  let created := step (OpSignIn c firebaseUser) db in
  ∃ P, created !! k = Some P
     ∧ (fu_email firebaseUser ≠ Some ROOT_OWNER_EMAIL →
          (∀ v, render P (currentSid c) v = UserDashboardScreen)
          ∧ userDashboard P = AuthorizationRequired
          ∧ toolsSubscribed P = false
          ∧ ∃ P', step (OpToggleApproval k) created !! k = Some P'
                ∧ userDashboard P' = CommandHub
                ∧ toolsSubscribed P' = true
                ∧ (∀ v, render P' (currentSid c) v = UserDashboardScreen))
     ∧ (fu_email firebaseUser = Some ROOT_OWNER_EMAIL →
          render P (currentSid c) true = AdminPanelScreen
          ∧ userDashboard P = CommandHub).
Proof.
  intros Hdb k created.
  assert (created
          = <[k := mkUserProfile k (default "" (fu_email firebaseUser))
                     (bool_decide (fu_email firebaseUser = Some ROOT_OWNER_EMAIL))
                     (bool_decide (fu_email firebaseUser = Some ROOT_OWNER_EMAIL))
                     (bool_decide (fu_email firebaseUser = Some ROOT_OWNER_EMAIL))
                     (currentSid c)
                     (Some (if bool_decide
                                 (fu_email firebaseUser = Some ROOT_OWNER_EMAIL)
                            then [newSessionOf c] else [])) None None]> db)
    as Hcreated.
  { unfold created, step, effects_of. fold (signIn c firebaseUser db).
    by rewrite signIn_new_profile. }
  eexists. rewrite Hcreated, lookup_insert_eq. split; [done |]. split.
  - intros Hemail. rewrite bool_decide_eq_false_2 by done.
    assert (∀ approved v,
              render (mkUserProfile k (default "" (fu_email firebaseUser))
                        false false approved (currentSid c) (Some []) None None)
                (currentSid c) v = UserDashboardScreen) as Hrender.
    { intros approved v. unfold render, isStale, isPrivileged; simpl.
      by rewrite (bool_decide_eq_false_2 (_ ≠ _)) by (intros H; by apply H). }
    split_and!; try done.
    eexists. unfold step, effects_of. rewrite lookup_insert_eq.
    unfold handleToggleApproval. simpl uid. simpl isApproved.
    rewrite (run_update_present _ _ _ _ (lookup_insert_eq _ _ _)).
    rewrite lookup_insert_eq. split; [done |].
    split_and!; try done. intros v. apply Hrender.
  - intros Hemail. rewrite bool_decide_eq_true_2 by done.
    split; [| done].
    unfold render, isStale, isPrivileged; simpl.
    by rewrite bool_decide_eq_true_2.
Qed.

Lemma new_user_waits_for_approval_witness :
  (∅ : gmap string UserProfile) !! "u9" = None
  ∧ ∃ P, step (OpSignIn (mkClient "s1" "X11" 1)
                 (mkFirebaseUser "u9" (Some "user@example.org"))) ∅ !! "u9"
         = Some P
       ∧ userDashboard P = AuthorizationRequired.
Proof.
  assert ((∅ : gmap string UserProfile) !! "u9" = None) as Hnew by reflexivity.
  assert (Some "user@example.org" ≠ Some ROOT_OWNER_EMAIL) as Hemail
    by (by vm_compute).
  split; [exact Hnew |].
  destruct (new_user_waits_for_approval (mkClient "s1" "X11" 1)
              (mkFirebaseUser "u9" (Some "user@example.org")) ∅ Hnew)
    as (P & Hlook & Hstd & _).
  exists P. split; [exact Hlook |].
  exact (proj1 (proj2 (Hstd Hemail))).
Defined.
